(** * pullMSKStats: a shallow embedding of the MSK metric collector

    This development embeds [src/pullMSKStats.py]: the serverless reduction
    [get_cloudwatch_serverless_metric], the provisioned reduction
    [get_cloudwatch_metric], the column layout of [create_dataframe], the
    cluster listing [get_msk_clusters] and the row assembler
    [get_msk_cluster_data].

    Modelling choices.
    - Python values met by the code (boto3 responses, cluster descriptors,
      cells of a row) are one type [pyval]; dicts are association lists,
      looked up at their first matching key.
    - Numbers are exact integers ([Z]): floating point rounding is not
      modelled. Timestamps are seconds since the epoch; [isoformat] keeps
      the instant, so it is the identity here.
    - Python exceptions are [result]'s [Raise]; the code runs in a state and
      error monad [M] whose state holds the wall clock read by
      [datetime.now] and the log of backend calls issued so far.
    - A backend client is a record of functions from the call's keyword
      arguments (a dict) to a response or an exception.
    - A paginator is the list of pages it yields, or the exception of its
      first request; each page it yields is logged as one request, issued
      just before the loop body runs on that page.
    - The [pd.ExcelWriter] of [process_aws_account] is a record of fallible
      file operations; [print] is not modelled. *)

From Stdlib Require Import String Ascii List ZArith Lia Bool.
Import ListNotations.
Open Scope string_scope.
Set Warnings "-register-all".

(** ** Python values *)

Inductive pyval : Type :=
| VNone
| VBool (b : bool)
| VInt (z : Z)
| VStr (s : string)
| VList (l : list pyval)
| VTuple (l : list pyval)
| VDict (kv : list (string * pyval)).

Inductive exn : Type :=
| KeyError
| IndexError
| TypeError
| AttributeError
| ValueError
| OverflowError
| BackendError (msg : string).

Inductive result (A : Type) : Type :=
| Ok (a : A)
| Raise (e : exn).
Arguments Ok {A} a.
Arguments Raise {A} e.

Definition rbind {A B} (r : result A) (k : A -> result B) : result B :=
  match r with Ok a => k a | Raise e => Raise e end.

Notation "x <-? r ;; k" := (rbind r (fun x => k))
  (at level 61, r at next level, right associativity).

(** Python equality. Dicts compare entry by entry in order (dict keys
    never reach this comparison in the code); [True == 1] holds. *)
Fixpoint pyval_eqb (a b : pyval) : bool :=
  match a, b with
  | VNone, VNone => true
  | VBool x, VBool y => Bool.eqb x y
  | VInt x, VInt y => Z.eqb x y
  | VBool x, VInt y | VInt y, VBool x => Z.eqb y (if x then 1 else 0)
  | VStr x, VStr y => String.eqb x y
  | VList xs, VList ys | VTuple xs, VTuple ys =>
      (fix go (xs ys : list pyval) : bool :=
         match xs, ys with
         | [], [] => true
         | x :: xs', y :: ys' => pyval_eqb x y && go xs' ys'
         | _, _ => false
         end) xs ys
  | VDict xs, VDict ys =>
      (fix go (xs ys : list (string * pyval)) : bool :=
         match xs, ys with
         | [], [] => true
         | (k, x) :: xs', (k', y) :: ys' =>
             String.eqb k k' && pyval_eqb x y && go xs' ys'
         | _, _ => false
         end) xs ys
  | _, _ => false
  end.

(** Truth value of [if v:]. *)
Definition truthy (v : pyval) : bool :=
  match v with
  | VNone => false
  | VBool b => b
  | VInt z => negb (Z.eqb z 0)
  | VStr s => negb (String.eqb s EmptyString)
  | VList l | VTuple l => match l with [] => false | _ => true end
  | VDict kv => match kv with [] => false | _ => true end
  end.

(** Only hashable values go into a set or serve as a dict key. *)
Fixpoint hashable (v : pyval) : bool :=
  match v with
  | VList _ | VDict _ => false
  | VTuple l => forallb hashable l
  | _ => true
  end.

Fixpoint assoc (k : string) (kv : list (string * pyval)) : option pyval :=
  match kv with
  | [] => None
  | (k', v) :: kv' => if String.eqb k k' then Some v else assoc k kv'
  end.

(** [d.get(k, default)] *)
Definition py_get (d : pyval) (k : string) (default : pyval) : result pyval :=
  match d with
  | VDict kv => match assoc k kv with Some v => Ok v | None => Ok default end
  | _ => Raise AttributeError
  end.

(** [d[k]] with a string key *)
Definition py_index (d : pyval) (k : string) : result pyval :=
  match d with
  | VDict kv => match assoc k kv with Some v => Ok v | None => Raise KeyError end
  | _ => Raise TypeError
  end.

(** [s[i]] with an integer index, negative indices counting from the end *)
Definition py_nth (s : pyval) (i : Z) : result pyval :=
  let at_index (l : list pyval) :=
    let n := Z.of_nat (length l) in
    let j := if (i <? 0)%Z then (n + i)%Z else i in
    if ((0 <=? j) && (j <? n))%Z
    then match nth_error l (Z.to_nat j) with Some v => Ok v | None => Raise IndexError end
    else Raise IndexError in
  match s with
  | VList l | VTuple l => at_index l
  | VStr str => at_index (map (fun c => VStr (String c EmptyString)) (list_ascii_of_string str))
  | VDict _ => Raise KeyError
  | _ => Raise TypeError
  end.

(** [len(v)] *)
Definition py_len (v : pyval) : result Z :=
  match v with
  | VList l | VTuple l => Ok (Z.of_nat (length l))
  | VDict kv => Ok (Z.of_nat (length kv))
  | VStr s => Ok (Z.of_nat (String.length s))
  | _ => Raise TypeError
  end.

(** [for x in v]: the items of a list or tuple, the keys of a dict, the
    characters of a string *)
Definition py_iter (v : pyval) : result (list pyval) :=
  match v with
  | VList l | VTuple l => Ok l
  | VDict kv => Ok (map (fun kv => VStr (fst kv)) kv)
  | VStr s => Ok (map (fun c => VStr (String c EmptyString)) (list_ascii_of_string s))
  | _ => Raise TypeError
  end.

Definition int_value (v : pyval) : option Z :=
  match v with
  | VInt z => Some z
  | VBool b => Some (if b then 1%Z else 0%Z)
  | _ => None
  end.

(** [a + b] on numbers *)
Definition py_add (a b : pyval) : result pyval :=
  match int_value a, int_value b with
  | Some x, Some y => Ok (VInt (x + y))
  | _, _ => Raise TypeError
  end.

(** [s == "lit"] *)
Definition is_str (v : pyval) (s : string) : bool :=
  match v with VStr s' => String.eqb s' s | _ => false end.

(** ** Strings *)

Definition ascii_lower (c : ascii) : ascii :=
  let n := nat_of_ascii c in
  if ((65 <=? n) && (n <=? 90))%nat then ascii_of_nat (n + 32) else c.

Definition ascii_upper (c : ascii) : ascii :=
  let n := nat_of_ascii c in
  if ((97 <=? n) && (n <=? 122))%nat then ascii_of_nat (n - 32) else c.

Definition str_map (f : ascii -> ascii) (s : string) : string :=
  string_of_list_ascii (map f (list_ascii_of_string s)).

(** [s.lower()], [s.upper()] and [s.replace(a, b)] for one-character [a], [b] *)
Definition str_lower := str_map ascii_lower.
Definition str_upper := str_map ascii_upper.
Definition str_replace_char (a b : ascii) :=
  str_map (fun c => if Ascii.eqb c a then b else c).

Fixpoint digits (fuel n : nat) (acc : string) : string :=
  match fuel with
  | O => acc
  | S f =>
      let acc' := String (ascii_of_nat (48 + n mod 10)) acc in
      if (n <? 10)%nat then acc' else digits f (n / 10) acc'
  end.

(** [str(n)] *)
Definition str_of_nat (n : nat) : string := digits (S n) n EmptyString.
Definition str_of_Z (z : Z) : string :=
  if (z <? 0)%Z then "-" ++ str_of_nat (Z.to_nat (- z)) else str_of_nat (Z.to_nat z).

(** [sep.join(l)] *)
Fixpoint str_join (sep : string) (l : list string) : string :=
  match l with
  | [] => EmptyString
  | [x] => x
  | x :: l' => x ++ sep ++ str_join sep l'
  end.

(** ** The effect monad: wall clock, backend call log, exceptions *)

Record call := mkCall { call_op : string; call_kwargs : pyval }.

Record state := mkState { st_now : Z; st_log : list call }.

Definition M (A : Type) : Type := state -> result A * state.

Definition ret {A} (a : A) : M A := fun s => (Ok a, s).

Definition bind {A B} (m : M A) (k : A -> M B) : M B :=
  fun s => match m s with
           | (Ok a, s') => k a s'
           | (Raise e, s') => (Raise e, s')
           end.

Notation "x <- m ;; k" := (bind m (fun x => k))
  (at level 61, m at next level, right associativity).

(** [try: m except Exception: h] *)
Definition try_M {A} (m : M A) (h : exn -> M A) : M A :=
  fun s => match m s with
           | (Raise e, s') => h e s'
           | r => r
           end.

Definition liftR {A} (r : result A) : M A := fun s => (r, s).

(** [datetime.now(timezone.utc)] *)
Definition now : M Z := fun s => (Ok (st_now s), s).

(** A backend request: recorded in the log, then answered (or raised). *)
Definition backend {A} (op : string) (kwargs : pyval) (answer : result A) : M A :=
  fun s => (answer, mkState (st_now s) (st_log s ++ [mkCall op kwargs])%list).

Fixpoint fold_result {A B} (f : B -> A -> result B) (acc : B) (l : list A) : result B :=
  match l with
  | [] => Ok acc
  | x :: l' => rbind (f acc x) (fun acc' => fold_result f acc' l')
  end.

(** ** The CloudWatch client *)

Record cloudwatch_client := {
  (** the pages yielded by the [list_metrics] paginator on these keyword arguments *)
  list_metrics : pyval -> result (list pyval);
  get_metric_data : pyval -> result pyval;
  get_metric_statistics : pyval -> result pyval
}.

(** ** Constants *)

Definition METRIC_COLLECTION_PERIOD_DAYS : Z := 7.
Definition CLUSTER_INFO : list string :=
  ["Region"; "ClusterName"; "Availability"; "Authentication"; "KafkaVersion"; "EnhancedMonitoring"].
Definition INSTANCE_INFO : list string := ["NodeId"; "NodeType"; "VolumeSize (GB)"].
Definition AVERAGE_METRICS : list string :=
  ["BytesInPerSec"; "BytesOutPerSec"; "MessagesInPerSec"; "KafkaDataLogsDiskUsed"].
Definition PEAK_METRICS : list string :=
  AVERAGE_METRICS ++ ["ClientConnectionCount"; "PartitionCount"; "GlobalTopicCount";
                      "LeaderCount"; "ReplicationBytesOutPerSec"; "ReplicationBytesInPerSec"].

(** ** [get_cloudwatch_serverless_metric] *)

Definition cluster_dimension_key : string := "Cluster Name".

Definition dimension (name : string) (value : pyval) : pyval :=
  VDict [("Name", VStr name); ("Value", value)].

(** One [dim] of the inner loop of the topic discovery: the flags
    [is_correct_cluster], [has_topic_dimension] and [topic_value]. *)
Definition scan_dimension (cluster_id : pyval) (flags : bool * bool * pyval) (dim : pyval)
  : result (bool * bool * pyval) :=
  let '(is_correct_cluster, has_topic_dimension, topic_value) := flags in
  name <-? py_index dim "Name" ;;
  matches <-? (if is_str name cluster_dimension_key
               then (v <-? py_index dim "Value" ;; Ok (pyval_eqb v cluster_id))
               else Ok false) ;;
  let is_correct_cluster' := is_correct_cluster || matches in
  name' <-? py_index dim "Name" ;;
  if is_str name' "Topic"
  then (v <-? py_index dim "Value" ;; Ok (is_correct_cluster', true, v))
  else Ok (is_correct_cluster', has_topic_dimension, topic_value).

(** [topics.add(v)] on a set kept in insertion order *)
Definition set_add (topics : list pyval) (v : pyval) : result (list pyval) :=
  if hashable v then
    if existsb (pyval_eqb v) topics then Ok topics else Ok (topics ++ [v])%list
  else Raise TypeError.

Definition scan_metric (cluster_id : pyval) (topics : list pyval) (metric : pyval)
  : result (list pyval) :=
  dims <-? py_get metric "Dimensions" (VList []) ;;
  ds <-? py_iter dims ;;
  flags <-? fold_result (scan_dimension cluster_id) (false, false, VNone) ds ;;
  let '(is_correct_cluster, has_topic_dimension, topic_value) := flags in
  if is_correct_cluster && has_topic_dimension && truthy topic_value
  then set_add topics topic_value
  else Ok topics.

Definition scan_page (cluster_id : pyval) (topics : list pyval) (page : pyval)
  : result (list pyval) :=
  ms <-? py_get page "Metrics" (VList []) ;;
  l <-? py_iter ms ;;
  fold_result (scan_metric cluster_id) topics l.

Definition discover_topics (cluster_id : pyval) (pages : list pyval) : result (list pyval) :=
  fold_result (scan_page cluster_id) [] pages.

Definition list_metrics_params (cluster_id : pyval) (metric_name : string) : pyval :=
  VDict [("Namespace", VStr "AWS/Kafka"); ("MetricName", VStr metric_name);
         ("Dimensions", VList [dimension cluster_dimension_key cluster_id])].

(** [f"query_{metric_name.lower().replace('-', '_').replace('.', '_')}_{i}"] *)
Definition query_id (metric_name : string) (i : nat) : string :=
  "query_" ++ str_replace_char "." "_" (str_replace_char "-" "_" (str_lower metric_name))
  ++ "_" ++ str_of_nat i.

Definition metric_data_query (cluster_id : pyval) (metric_name : string) (period : Z)
  (statistic : string) (i : nat) (topic_name : pyval) : pyval :=
  VDict [("Id", VStr (query_id metric_name i));
         ("MetricStat", VDict [
            ("Metric", VDict [("Namespace", VStr "AWS/Kafka");
                              ("MetricName", VStr metric_name);
                              ("Dimensions", VList [dimension cluster_dimension_key cluster_id;
                                                    dimension "Topic" topic_name])]);
            ("Period", VInt period);
            ("Stat", VStr statistic)]);
         ("ReturnData", VBool true)].

(** [for i, x in enumerate(l)] *)
Definition enumerate {A} (l : list A) : list (nat * A) := combine (seq 0 (length l)) l.

(** [range(start, stop, step)] for a positive [step] *)
Definition py_range_step (start stop step : nat) : list nat :=
  map (fun k => start + k * step) (seq 0 ((stop - start + step - 1) / step)).

(** [l[i:j]] for [0 <= i <= j] *)
Definition py_slice {A} (l : list A) (i j : nat) : list A := firstn (j - i) (skipn i l).

Definition max_queries_per_call : nat := 500.

(** The batches of [for i in range(0, len(q), max_queries_per_call): q[i:i + max_queries_per_call]] *)
Definition batches {A} (metric_data_queries : list A) : list (list A) :=
  map (fun i => py_slice metric_data_queries i (i + max_queries_per_call))
      (py_range_step 0 (length metric_data_queries) max_queries_per_call).

(** One [result] of a [get_metric_data] response: [Values[0]] is added to
    the running sum when [Values] is non-empty; otherwise the code looks
    up the result's [Id] to name the topic in its message (the search
    through the batch's own queries cannot fail once [Id] is found). *)
Definition add_result (acc : pyval) (r : pyval) : result pyval :=
  let no_data := (_ <-? py_index r "Id" ;; Ok acc) in
  vs <-? py_get r "Values" VNone ;;
  if truthy vs then
    vs' <-? py_index r "Values" ;;
    n <-? py_len vs' ;;
    if (0 <? n)%Z then
      vs'' <-? py_index r "Values" ;;
      value_from_topic <-? py_nth vs'' 0 ;;
      py_add acc value_from_topic
    else no_data
  else no_data.

(** The loop over the results of a batch. The sum is a variable of the
    enclosing function, so an exception raised midway keeps what was added
    before it: the running sum comes back with the exception, if any. *)
Fixpoint add_results (acc : pyval) (rs : list pyval) : pyval * option exn :=
  match rs with
  | [] => (acc, None)
  | r :: rs' =>
      match add_result acc r with
      | Ok acc' => add_results acc' rs'
      | Raise e => (acc, Some e)
      end
  end.

Definition add_response (acc : pyval) (response : pyval) : pyval * option exn :=
  match (rs <-? py_get response "MetricDataResults" (VList []) ;; py_iter rs) with
  | Ok rs => add_results acc rs
  | Raise e => (acc, Some e)
  end.

Definition get_metric_data_kwargs (batch_queries : list pyval) (start_time end_time : Z) : pyval :=
  VDict [("MetricDataQueries", VList batch_queries); ("StartTime", VInt start_time);
         ("EndTime", VInt end_time); ("ScanBy", VStr "TimestampAscending")].

(** The body of the batch loop, with its [try ... except Exception]: a
    failing call adds nothing, the sum so far is kept and the loop goes on. *)
Definition run_batch (cw : cloudwatch_client) (start_time end_time : Z)
  (acc : pyval) (batch_queries : list pyval) : M pyval :=
  let kwargs := get_metric_data_kwargs batch_queries start_time end_time in
  response <- try_M (r <- backend "get_metric_data" kwargs (get_metric_data cw kwargs) ;;
                     ret (Some r))
                    (fun _ => ret None) ;;
  match response with
  | None => ret acc
  | Some r => ret (fst (add_response acc r))
  end.

Fixpoint run_batches (cw : cloudwatch_client) (start_time end_time : Z)
  (acc : pyval) (bs : list (list pyval)) : M pyval :=
  match bs with
  | [] => ret acc
  | b :: bs' =>
      acc' <- run_batch cw start_time end_time acc b ;;
      run_batches cw start_time end_time acc' bs'
  end.

(** The [for page in paginator.paginate(...)] loop: the paginator sends one
    [ListMetrics] request for each page it yields, and the page is scanned
    before the next request; a scan that raises stops the loop. *)
Fixpoint scan_pages (params cluster_id : pyval) (topics : list pyval) (pages : list pyval)
  : M (list pyval) :=
  match pages with
  | [] => ret topics
  | page :: pages' =>
      _ <- backend "list_metrics" params (Ok page) ;;
      topics' <- liftR (scan_page cluster_id topics page) ;;
      scan_pages params cluster_id topics' pages'
  end.

Definition get_cloudwatch_serverless_metric (cw : cloudwatch_client) (cluster_id : pyval)
  (metric_name : string) (is_peak : bool) (time_period : Z) : M pyval :=
  end_time <- now ;;
  let start_time := (end_time - time_period * 86400)%Z in
  let period := (time_period * 24 * 60 * 60)%Z in
  let params := list_metrics_params cluster_id metric_name in
  found <- try_M (match list_metrics cw params with
                  | Ok pages => topics <- scan_pages params cluster_id [] pages ;; ret (Some topics)
                  | Raise e => backend "list_metrics" params (Raise e)
                  end)
                 (fun _ => ret None) ;;
  match found with
  | None => ret (VInt 0)
  | Some [] => ret (VInt 0)
  | Some topics =>
      let statistic_to_fetch := if is_peak then "Maximum" else "Average" in
      let metric_data_queries :=
        map (fun it => metric_data_query cluster_id metric_name period statistic_to_fetch
                                         (fst it) (snd it))
            (enumerate topics) in
      match metric_data_queries with
      | [] => ret (VInt 0)
      | _ => run_batches cw start_time end_time (VInt 0) (batches metric_data_queries)
      end
  end.

(** ** [get_cloudwatch_metric] *)

Definition metric_dimensions (cluster_id : pyval) (metric_name : string) (node : option Z) : pyval :=
  VList ([dimension "Cluster Name" cluster_id] ++
         match node with
         | Some n => if String.eqb metric_name "GlobalTopicCount" then []
                     else [dimension "Broker ID" (VStr (str_of_Z n))]
         | None => []
         end).

Definition get_metric_statistics_kwargs (metric_name : string) (dimensions : pyval)
  (start_time end_time period : Z) (statistics : list string) : pyval :=
  VDict [("Namespace", VStr "AWS/Kafka"); ("MetricName", VStr metric_name);
         ("Dimensions", dimensions); ("StartTime", VInt start_time);
         ("EndTime", VInt end_time); ("Period", VInt period);
         ("Statistics", VList (map VStr statistics))].

(** No [try] here: an exception of the backend call reaches the caller. *)
Definition get_cloudwatch_metric (cw : cloudwatch_client) (cluster_id : pyval)
  (metric_name : string) (is_peak : bool) (node : option Z) (time_period : Z) : M pyval :=
  end_time <- now ;;
  let start_time := (end_time - time_period * 86400)%Z in
  let period := (time_period * 24 * 60 * 60)%Z in
  let dimensions := metric_dimensions cluster_id metric_name node in
  let statistics := if is_peak then ["Maximum"] else ["Average"] in
  let kwargs := get_metric_statistics_kwargs metric_name dimensions start_time end_time
                  period statistics in
  response <- backend "get_metric_statistics" kwargs (get_metric_statistics cw kwargs) ;;
  dps <- liftR (py_get response "Datapoints" VNone) ;;
  if negb (truthy dps) then ret (VInt 0)
  else liftR (dps' <-? py_index response "Datapoints" ;;
              dp <-? py_nth dps' 0 ;;
              py_index dp (if is_peak then "Maximum" else "Average")).

(** ** [create_dataframe] *)

Definition create_dataframe_columns : list string :=
  CLUSTER_INFO ++ INSTANCE_INFO
  ++ map (fun metric => metric ++ " (avg)") AVERAGE_METRICS
  ++ map (fun metric => metric ++ " (max)") PEAK_METRICS.

Record dataframe := mkFrame { df_columns : list string; df_rows : list (list pyval) }.

(** ** [get_msk_clusters] *)

Record kafka_client := {
  (** the pages yielded by the [list_clusters_v2] paginator *)
  list_clusters_v2 : result (list pyval)
}.

(** [d[k] = v] on a dict kept in insertion order: an existing key keeps its
    place and takes the new value. *)
Fixpoint dict_replace (d : list (pyval * pyval)) (k v : pyval) : list (pyval * pyval) :=
  match d with
  | [] => []
  | (k', v') :: d' => if pyval_eqb k k' then (k', v) :: d' else (k', v') :: dict_replace d' k v
  end.

Definition dict_setitem (d : list (pyval * pyval)) (k v : pyval) : result (list (pyval * pyval)) :=
  if hashable k then
    if existsb (fun kv => pyval_eqb k (fst kv)) d then Ok (dict_replace d k v)
    else Ok (d ++ [(k, v)])%list
  else Raise TypeError.

Definition add_cluster (clusters : list (pyval * pyval)) (cluster : pyval)
  : result (list (pyval * pyval)) :=
  st <-? py_index cluster "State" ;;
  if is_str st "ACTIVE" then
    name <-? py_index cluster "ClusterName" ;;
    dict_setitem clusters name cluster
  else Ok clusters.

Definition add_page (clusters : list (pyval * pyval)) (page : pyval)
  : result (list (pyval * pyval)) :=
  l <-? py_index page "ClusterInfoList" ;;
  cs <-? py_iter l ;;
  fold_result add_cluster clusters cs.

(** The [for page in paginator.paginate()] loop: one [ListClustersV2]
    request for each page, the page scanned before the next request. *)
Fixpoint scan_cluster_pages (clusters : list (pyval * pyval)) (pages : list pyval)
  : M (list (pyval * pyval)) :=
  match pages with
  | [] => ret clusters
  | page :: pages' =>
      _ <- backend "list_clusters_v2" (VDict []) (Ok page) ;;
      clusters' <- liftR (add_page clusters page) ;;
      scan_cluster_pages clusters' pages'
  end.

(** The dict under [msk_running_instances]: active clusters by name. *)
Definition get_msk_clusters (kafka : kafka_client) : M (list (pyval * pyval)) :=
  match list_clusters_v2 kafka with
  | Ok pages => scan_cluster_pages [] pages
  | Raise e => backend "list_clusters_v2" (VDict []) (Raise e)
  end.

(** ** [get_msk_cluster_data] *)

(** [s.upper()] *)
Definition py_upper (v : pyval) : result string :=
  match v with VStr s => Ok (str_upper s) | _ => Raise AttributeError end.

(** The authentication label of lines 346-353. *)
Definition auth_string_of (auth_config : pyval) : result string :=
  sasl <-? py_get auth_config "Sasl" (VDict []) ;;
  iam <-? py_get sasl "Iam" (VDict []) ;;
  iam_enabled <-? py_get iam "Enabled" VNone ;;
  sasl' <-? py_get auth_config "Sasl" (VDict []) ;;
  scram <-? py_get sasl' "Scram" (VDict []) ;;
  scram_enabled <-? py_get scram "Enabled" VNone ;;
  tls <-? py_get auth_config "Tls" (VDict []) ;;
  tls_enabled <-? py_get tls "Enabled" VNone ;;
  let auth_types :=
    ((if truthy iam_enabled then ["SASL/IAM"] else [])
     ++ (if truthy scram_enabled then ["SASL/SCRAM"] else [])
     ++ (if truthy tls_enabled then ["TLS"] else []))%list in
  Ok (match auth_types with [] => "None" | _ => str_join ", " auth_types end).

(** What the block under [if not cluster_info_written] computes. *)
Record cluster_desc := mkDesc {
  cd_type : string;                     (* cluster_type *)
  cd_base_info : list pyval;            (* base_info *)
  cd_number_of_broker_nodes : pyval;    (* number_of_broker_nodes *)
  cd_instance_type : pyval;             (* instance_type *)
  cd_volume_size : pyval                (* volume_size *)
}.

Definition describe_cluster (region : string) (cluster_id details : pyval) : result cluster_desc :=
  ct <-? py_get details "ClusterType" (VStr "CLUSTERLESS") ;;
  cluster_type <-? py_upper ct ;;
  if String.eqb cluster_type "PROVISIONED" then
    prov <-? py_index details "Provisioned" ;;
    auth_config <-? py_index prov "ClientAuthentication" ;;
    bngi <-? py_index prov "BrokerNodeGroupInfo" ;;
    az <-? py_index bngi "BrokerAZDistribution" ;;
    let az_distribution :=
      if is_str az "DEFAULT" then VStr "Multiple AZ"
      else if is_str az "SINGLE" then VStr "Single AZ" else az in
    cbsi <-? py_index prov "CurrentBrokerSoftwareInfo" ;;
    kv <-? py_index cbsi "KafkaVersion" ;;
    (* the trailing comma of line 336 makes a one-element tuple *)
    let kafka_version := VTuple [kv] in
    enhanced_monitoring <-? py_index prov "EnhancedMonitoring" ;;
    number_of_broker_nodes <-? py_index prov "NumberOfBrokerNodes" ;;
    p1 <-? py_get details "Provisioned" (VDict []) ;;
    b1 <-? py_get p1 "BrokerNodeGroupInfo" (VDict []) ;;
    instance_type <-? py_get b1 "InstanceType" (VStr "N/A") ;;
    p2 <-? py_get details "Provisioned" (VDict []) ;;
    b2 <-? py_get p2 "BrokerNodeGroupInfo" (VDict []) ;;
    si <-? py_get b2 "StorageInfo" (VDict []) ;;
    ebs <-? py_get si "EbsStorageInfo" (VDict []) ;;
    volume_size <-? py_get ebs "VolumeSize" (VInt 0) ;;
    auth_string <-? auth_string_of auth_config ;;
    Ok (mkDesc cluster_type
               [VStr region; cluster_id; az_distribution; VStr auth_string;
                kafka_version; enhanced_monitoring]
               number_of_broker_nodes instance_type volume_size)
  else
    sl <-? py_index details "Serverless" ;;
    auth_config <-? py_index sl "ClientAuthentication" ;;
    auth_string <-? auth_string_of auth_config ;;
    Ok (mkDesc cluster_type
               [VStr region; cluster_id; VStr "Multiple AZ"; VStr auth_string;
                VStr "N/A"; VStr "N/A"]
               (VInt 1) (VStr "N/A") (VInt 0)).

(** [range(a, b)] *)
Definition py_range (a b : Z) : list Z :=
  map (fun k => (a + Z.of_nat k)%Z) (seq 0 (Z.to_nat (b - a))).

(** [range(1, number_of_nodes + 1)] *)
Definition node_ids (d : cluster_desc) : result (list Z) :=
  let number_of_nodes :=
    if String.eqb (cd_type d) "PROVISIONED" then cd_number_of_broker_nodes d else VInt 1 in
  stop <-? py_add number_of_nodes (VInt 1) ;;
  match int_value stop with
  | Some b => Ok (py_range 1 b)
  | None => Raise TypeError
  end.

Fixpoint mapM {A B} (f : A -> M B) (l : list A) : M (list B) :=
  match l with
  | [] => ret []
  | x :: l' => y <- f x ;; ys <- mapM f l' ;; ret (y :: ys)
  end.

(** The metric cells of one row (lines 381-391). The serverless call passes
    [node_id] as its fifth positional argument, which is [time_period]. *)
Definition metric_cells (cw : cloudwatch_client) (cluster_id : pyval) (cluster_type : string)
  (node_id : Z) : M (list pyval) :=
  if String.eqb cluster_type "PROVISIONED" then
    avg <- mapM (fun metric => get_cloudwatch_metric cw cluster_id metric false (Some node_id)
                                 METRIC_COLLECTION_PERIOD_DAYS) AVERAGE_METRICS ;;
    peak <- mapM (fun metric => get_cloudwatch_metric cw cluster_id metric true (Some node_id)
                                  METRIC_COLLECTION_PERIOD_DAYS) PEAK_METRICS ;;
    ret (avg ++ peak)%list
  else
    avg <- mapM (fun metric => get_cloudwatch_serverless_metric cw cluster_id metric false node_id)
                AVERAGE_METRICS ;;
    peak <- mapM (fun metric => get_cloudwatch_serverless_metric cw cluster_id metric true node_id)
                 PEAK_METRICS ;;
    ret (avg ++ peak)%list.

(** The node loop, threading [cluster_info_written]. *)
Fixpoint node_rows (cw : cloudwatch_client) (cluster_id : pyval) (d : cluster_desc)
  (cluster_info_written : bool) (ids : list Z) : M (list (list pyval)) :=
  match ids with
  | [] => ret []
  | node_id :: ids' =>
      let cluster_part :=
        if cluster_info_written then repeat (VStr EmptyString) (length CLUSTER_INFO) else cd_base_info d in
      cells <- metric_cells cw cluster_id (cd_type d) node_id ;;
      let row := (cluster_part ++ [VInt node_id; cd_instance_type d; cd_volume_size d] ++ cells)%list in
      rows <- node_rows cw cluster_id d true ids' ;;
      ret (row :: rows)
  end.

Definition cluster_rows (cw : cloudwatch_client) (region : string) (entry : pyval * pyval)
  : M (list (list pyval)) :=
  let '(cluster_id, details) := entry in
  d <- liftR (describe_cluster region cluster_id details) ;;
  ids <- liftR (node_ids d) ;;
  node_rows cw cluster_id d false ids.

(** The [rows] list built by [get_msk_cluster_data]. *)
Definition get_msk_cluster_rows (cw : cloudwatch_client) (kafka : kafka_client) (region : string)
  : M (list (list pyval)) :=
  running_instances <- get_msk_clusters kafka ;;
  blocks <- mapM (cluster_rows cw region) running_instances ;;
  ret (concat blocks).

Definition get_msk_cluster_data (cw : cloudwatch_client) (kafka : kafka_client) (region : string)
  : M dataframe :=
  rows <- get_msk_cluster_rows cw kafka region ;;
  ret (mkFrame create_dataframe_columns rows).

(** ** Backends used to state the claims *)

(** The [Topic] dimension of a query built by [metric_data_query]. *)
Definition query_topic (q : pyval) : pyval :=
  match (ms <-? py_index q "MetricStat" ;; m <-? py_index ms "Metric" ;;
         ds <-? py_index m "Dimensions" ;; d <-? py_nth ds 1 ;; py_index d "Value") with
  | Ok t => t
  | Raise _ => VNone
  end.

(** The result a backend holding the datapoints [values t] for each topic
    [t] gives for the query [q]. *)
Definition topic_result (values : pyval -> list Z) (q : pyval) : pyval :=
  VDict [("Id", match py_index q "Id" with Ok i => i | Raise _ => VNone end);
         ("Values", VList (map VInt (values (query_topic q))))].

Definition sum_Z (l : list Z) : Z := fold_right Z.add 0%Z l.

(** The value a series with the datapoints [vs] contributes per the spec:
    its single datapoint, 0 when there is none. *)
Definition single_value (vs : list Z) : Z :=
  match vs with [v] => v | _ => 0%Z end.

(** Keep only the first element of a list or tuple. *)
Definition first_only (v : pyval) : pyval :=
  match v with
  | VList (x :: _) => VList [x]
  | VTuple (x :: _) => VTuple [x]
  | _ => v
  end.

Definition update_entry (k : string) (f : pyval -> pyval) (e : string * pyval) : string * pyval :=
  if String.eqb k (fst e) then (fst e, f (snd e)) else e.

(** Apply [f] to the entry [k] of a dict. *)
Definition map_key (k : string) (f : pyval -> pyval) (d : pyval) : pyval :=
  match d with
  | VDict kv => VDict (map (update_entry k f) kv)
  | _ => d
  end.

Definition map_items (f : pyval -> pyval) (v : pyval) : pyval :=
  match v with
  | VList l => VList (map f l)
  | VTuple l => VTuple (map f l)
  | _ => v
  end.

Definition rmap {A B} (f : A -> B) (r : result A) : result B :=
  match r with Ok a => Ok (f a) | Raise e => Raise e end.

(** The same backend with every datapoint after the first dropped. *)
Definition first_datapoints (cw : cloudwatch_client) : cloudwatch_client := {|
  list_metrics := list_metrics cw;
  get_metric_data := fun kw =>
    rmap (map_key "MetricDataResults" (map_items (map_key "Values" first_only)))
         (get_metric_data cw kw);
  get_metric_statistics := fun kw =>
    rmap (map_key "Datapoints" first_only) (get_metric_statistics cw kw)
|}.

(** A backend whose every request fails. *)
Definition failing_client (e : exn) : cloudwatch_client := {|
  list_metrics := fun _ => Raise e;
  get_metric_data := fun _ => Raise e;
  get_metric_statistics := fun _ => Raise e
|}.

(** ** Concrete inputs *)

(** A series advertised by [list_metrics] for a topic of a cluster. *)
Definition topic_series (cluster_id : pyval) (topic : string) : pyval :=
  VDict [("MetricName", VStr "MessagesInPerSec");
         ("Dimensions", VList [dimension "Cluster Name" cluster_id; dimension "Topic" (VStr topic)])].

(** The [MetricDataQueries] of a [get_metric_data] request. *)
Definition queries_of (kwargs : pyval) : list pyval :=
  match (q <-? py_index kwargs "MetricDataQueries" ;; py_iter q) with
  | Ok l => l
  | Raise _ => []
  end.

(** Topic [a] reports 5, topic [b] reports 7. *)
Definition demo_values (t : pyval) : list Z :=
  if pyval_eqb t (VStr "a") then [5%Z]
  else if pyval_eqb t (VStr "b") then [7%Z] else [].

(** A backend for the cluster [demo-serverless] with topics [a] and [b]
    (series of [a] listed twice), and one datapoint per statistics request. *)
Definition demo_cw : cloudwatch_client := {|
  list_metrics := fun _ =>
    Ok [VDict [("Metrics", VList [topic_series (VStr "demo-serverless") "a";
                                  topic_series (VStr "demo-serverless") "b";
                                  topic_series (VStr "demo-serverless") "a"])]];
  get_metric_data := fun kw =>
    Ok (VDict [("MetricDataResults", VList (map (topic_result demo_values) (queries_of kw)))]);
  get_metric_statistics := fun _ =>
    Ok (VDict [("Datapoints", VList [VDict [("Average", VInt 100); ("Maximum", VInt 120)]])])
|}.

Definition demo_serverless_descriptor : pyval :=
  VDict [("State", VStr "ACTIVE"); ("ClusterName", VStr "demo-serverless");
         ("ClusterType", VStr "SERVERLESS");
         ("Serverless", VDict [("ClientAuthentication",
            VDict [("Sasl", VDict [("Iam", VDict [("Enabled", VBool true)])])])])].

(** A provisioned descriptor whose optional nested entries are all absent. *)
Definition provisioned_descriptor (name : pyval) (auth_config az kafka_version monitoring nodes : pyval)
  : pyval :=
  VDict [("State", VStr "ACTIVE"); ("ClusterName", name); ("ClusterType", VStr "PROVISIONED");
         ("Provisioned", VDict [
            ("ClientAuthentication", auth_config);
            ("BrokerNodeGroupInfo", VDict [("BrokerAZDistribution", az)]);
            ("CurrentBrokerSoftwareInfo", VDict [("KafkaVersion", kafka_version)]);
            ("EnhancedMonitoring", monitoring);
            ("NumberOfBrokerNodes", nodes)])].

Definition demo_msk_descriptor : pyval :=
  provisioned_descriptor (VStr "demo-msk") (VDict []) (VStr "DEFAULT") (VStr "3.5.1")
                         (VStr "DEFAULT") (VInt 2).

(** A provisioned descriptor without [ClientAuthentication]. *)
Definition no_auth_descriptor : pyval :=
  VDict [("State", VStr "ACTIVE"); ("ClusterName", VStr "no-auth"); ("ClusterType", VStr "PROVISIONED");
         ("Provisioned", VDict [
            ("BrokerNodeGroupInfo", VDict [("BrokerAZDistribution", VStr "DEFAULT")]);
            ("CurrentBrokerSoftwareInfo", VDict [("KafkaVersion", VStr "3.5.1")]);
            ("EnhancedMonitoring", VStr "DEFAULT");
            ("NumberOfBrokerNodes", VInt 2)])].

Definition kafka_of (descriptors : list pyval) : kafka_client :=
  {| list_clusters_v2 := Ok [VDict [("ClusterInfoList", VList descriptors)]] |}.

Definition demo_kafka : kafka_client := kafka_of [demo_serverless_descriptor; demo_msk_descriptor].

Definition demo_state : state := mkState 1000000 [].

(** ** [get_aws_costs] *)

(** The date part of [datetime.now()]; [strftime('%Y-%m-%d')] reads nothing else. *)
Record date := mkDate { year : Z; month : Z; day : Z }.

Definition is_leap (y : Z) : bool :=
  (Z.eqb (y mod 4) 0 && negb (Z.eqb (y mod 100) 0)) || Z.eqb (y mod 400) 0.

Definition days_in_month (y m : Z) : Z :=
  if Z.eqb m 2 then (if is_leap y then 29 else 28)
  else if existsb (Z.eqb m) [4; 6; 9; 11]%Z then 30 else 31.

(** A date [datetime] accepts. *)
Definition valid_date (d : date) : Prop :=
  (1 <= year d <= 9999 /\ 1 <= month d <= 12 /\ 1 <= day d <= days_in_month (year d) (month d))%Z.

(** [d.replace(day=1)]: every month has a day 1. *)
Definition replace_day1 (d : date) : date := mkDate (year d) (month d) 1.

(** [d - timedelta(days=1)]; the first day of year 1 has no predecessor. *)
Definition minus_one_day (d : date) : result date :=
  if (1 <? day d)%Z then Ok (mkDate (year d) (month d) (day d - 1))
  else if (1 <? month d)%Z
  then Ok (mkDate (year d) (month d - 1) (days_in_month (year d) (month d - 1)))
  else if (1 <? year d)%Z then Ok (mkDate (year d - 1) 12 31)
  else Raise OverflowError.

Definition pad2 (n : Z) : string := if (n <? 10)%Z then "0" ++ str_of_Z n else str_of_Z n.

(** [d.strftime('%Y-%m-%d')]; the year is written without padding, as
    the C library does for the four-digit years met here. *)
Definition strftime_ymd (d : date) : string :=
  str_of_Z (year d) ++ "-" ++ pad2 (month d) ++ "-" ++ pad2 (day d).

Record cost_explorer := {
  get_cost_and_usage : pyval -> result pyval
}.

Definition cost_and_usage_kwargs (region : pyval) (start end_ : string) : pyval :=
  VDict [("TimePeriod", VDict [("Start", VStr start); ("End", VStr end_)]);
         ("Granularity", VStr "MONTHLY");
         ("Filter", VDict [("And", VList [
            VDict [("Dimensions", VDict [("Key", VStr "REGION"); ("Values", VList [region])])];
            VDict [("Dimensions", VDict [("Key", VStr "SERVICE");
                     ("Values", VList [VStr "Amazon Managed Streaming for Apache Kafka"])])]])]);
         ("Metrics", VList [VStr "UnblendedCost"]);
         ("GroupBy", VList [VDict [("Type", VStr "DIMENSION"); ("Key", VStr "USAGE_TYPE")]])].

(** A row of the cost frame: [time_period], [usage_type], [cost]. *)
Record cost_row := mkCost { cr_time_period : pyval; cr_usage_type : pyval; cr_cost : Z }.

Fixpoint mapR {A B} (f : A -> result B) (l : list A) : result (list B) :=
  match l with
  | [] => Ok []
  | x :: l' => y <-? f x ;; ys <-? mapR f l' ;; Ok (y :: ys)
  end.

Section Costs.
(** [float(...)] of an [Amount]: a conversion of the Python runtime,
    left as a parameter. *)
Variable py_float : pyval -> result Z.

(** The dict built for one [group] of one [res], its entries evaluated
    in the order written. *)
Definition cost_row_of (res group : pyval) : result cost_row :=
  tp <-? py_index res "TimePeriod" ;;
  start <-? py_index tp "Start" ;;
  keys <-? py_index group "Keys" ;;
  usage_type <-? py_nth keys 0 ;;
  ms <-? py_index group "Metrics" ;;
  uc <-? py_index ms "UnblendedCost" ;;
  amount <-? py_index uc "Amount" ;;
  cost <-? py_float amount ;;
  Ok (mkCost start usage_type cost).

(** [[... for res in pricing_data['ResultsByTime'] for group in res['Groups']]] *)
Definition cost_data (pricing_data : pyval) : result (list cost_row) :=
  rbt <-? py_index pricing_data "ResultsByTime" ;;
  results <-? py_iter rbt ;;
  fold_result (fun acc res =>
                 gs <-? py_index res "Groups" ;;
                 groups <-? py_iter gs ;;
                 rows <-? mapR (cost_row_of res) groups ;;
                 Ok (acc ++ rows)%list) [] results.

(** The rows of the returned frame; the empty frame is [[]]. With no
    data, [pd.DataFrame([])] has no [cost] column, so [cost_df["cost"]]
    raises [KeyError], which the [except] turns into the empty frame. *)
Definition get_aws_costs (ce : cost_explorer) (region : pyval) (today : date) : M (list cost_row) :=
  try_M
    (let first := replace_day1 today in
     prev <- liftR (minus_one_day first) ;;
     let start := strftime_ymd (replace_day1 prev) in
     prev' <- liftR (minus_one_day first) ;;
     let end_ := strftime_ymd prev' in
     let kwargs := cost_and_usage_kwargs region start end_ in
     pricing_data <- backend "get_cost_and_usage" kwargs (get_cost_and_usage ce kwargs) ;;
     data <- liftR (cost_data pricing_data) ;;
     match data with
     | [] => liftR (Raise KeyError)
     | _ => ret (data ++ [mkCost (VStr "TOTAL") (VStr "ALL") (sum_Z (map cr_cost data))])%list
     end)
    (fun _ => ret []).

(** ** [process_aws_account] *)

Inductive sheet := ClusterSheet (df : dataframe) | CostSheet (rows : list cost_row).

(** The workbook as [excel_writer.close()] saves it. *)
Record workbook := mkWorkbook { wb_path : string; wb_sheets : list (string * sheet) }.

(** [os.path.join(a, b)] on POSIX paths *)
Definition path_join (a b : string) : string :=
  if String.prefix "/" b then b
  else if String.eqb a EmptyString then b
  else if String.eqb (substring (String.length a - 1) 1 a) "/" then a ++ b
  else a ++ "/" ++ b.

(** The [pd.ExcelWriter] with the [xlsxwriter] engine: opening the output
    file, [to_excel] of one sheet, and [close()] saving the workbook; each
    may raise. *)
Record excel_engine := {
  excel_open : string -> result unit;
  excel_write : string -> string -> sheet -> result unit;
  excel_save : workbook -> result unit
}.

Definition process_aws_account (cw : cloudwatch_client) (kafka : kafka_client) (ce : cost_explorer)
  (xl : excel_engine) (section output_dir region : string) (today : date) : M workbook :=
  let output_file := path_join output_dir (section ++ "-" ++ region ++ ".xlsx") in
  _ <- liftR (excel_open xl output_file) ;;
  cluster_df <- get_msk_cluster_data cw kafka region ;;
  _ <- liftR (excel_write xl output_file "ClusterData" (ClusterSheet cluster_df)) ;;
  costs_df <- get_aws_costs ce (VStr region) today ;;
  _ <- match costs_df with
       | [] => ret tt
       | _ => liftR (excel_write xl output_file "Costs" (CostSheet costs_df))
       end ;;
  let wb := mkWorkbook output_file
              ([("ClusterData", ClusterSheet cluster_df)]
               ++ match costs_df with [] => [] | _ => [("Costs", CostSheet costs_df)] end)%list in
  _ <- liftR (excel_save xl wb) ;;
  ret wb.
End Costs.

(** ** [pullStats.main] *)

(** The names bound at the top level of [pullMSKStats]. *)
Definition pullMSKStats_names : list string :=
  ["__name__"; "__doc__"; "__package__"; "__loader__"; "__spec__"; "__file__"; "__cached__";
   "__builtins__"; "boto3"; "datetime"; "timedelta"; "timezone"; "os"; "pd";
   "METRIC_COLLECTION_PERIOD_DAYS"; "AGGREGATION_DURATION_SECONDS"; "CLUSTER_INFO";
   "INSTANCE_INFO"; "AVERAGE_METRICS"; "PEAK_METRICS"; "AVERAGE_METRICS_SERVERLESS";
   "PEAK_METRICS_SERVERLESS"; "get_msk_clusters"; "get_cloudwatch_serverless_metric";
   "get_cloudwatch_metric"; "create_dataframe"; "get_msk_cluster_data"; "get_aws_costs";
   "process_aws_account"].

(** [module.attr] *)
Definition module_getattr (names : list string) (attr : string) : result string :=
  if existsb (String.eqb attr) names then Ok attr else Raise AttributeError.

(** How [main] ends: an exit status, an exception, or a call into a
    collector ([pullKafkaStats] is not part of this source tree). *)
Inductive outcome :=
| Exited (code : Z)
| Raised (e : exn)
| CallsMSK (function config_file output_dir : string)
| CallsOSK (config_file output_dir : string).

(** [main] after argument parsing, on the positional arguments. *)
Definition main (cluster_type config_file output_dir : string) : outcome :=
  if String.eqb config_file EmptyString || String.eqb cluster_type EmptyString then Exited 1
  else if String.eqb cluster_type "msk" then
    match module_getattr pullMSKStats_names "processMSKStats" with
    | Ok f => CallsMSK f config_file output_dir
    | Raise e => Raised e
    end
  else if String.eqb cluster_type "osk" then CallsOSK config_file output_dir
  else Exited 1.

(** ** Readings of the spec's terms *)

(** The layout of a row: the cluster-level part, the node fields, then the
    metric cells. *)
Definition row_layout (row : list pyval) : Prop :=
  exists cluster_part node_id instance_type volume_size cells,
    (row = cluster_part ++ [VInt node_id; instance_type; volume_size] ++ cells
     /\ length cluster_part = length CLUSTER_INFO
     /\ length cells = length AVERAGE_METRICS + length PEAK_METRICS)%list.

(** The node count a descriptor declares: [NumberOfBrokerNodes] for a
    provisioned cluster, one for any other. *)
Definition declared_node_count (details : pyval) : nat :=
  match rbind (py_get details "ClusterType" (VStr "CLUSTERLESS")) py_upper with
  | Ok cluster_type =>
      if String.eqb cluster_type "PROVISIONED" then
        match rbind (py_index details "Provisioned") (fun p => py_index p "NumberOfBrokerNodes") with
        | Ok n => match int_value n with Some z => Z.to_nat z | None => 0 end
        | Raise _ => 0
        end
      else 1
  | Raise _ => 1
  end.

(** The operation of a logged call and the length of its time window. *)
Definition window_length (c : call) : string * Z :=
  (call_op c,
   match py_get (call_kwargs c) "StartTime" VNone, py_get (call_kwargs c) "EndTime" VNone with
   | Ok (VInt start_time), Ok (VInt end_time) => (end_time - start_time)%Z
   | _, _ => 0%Z
   end).

Definition result_or {A} (r : result A) (default : A) : A :=
  match r with Ok a => a | Raise _ => default end.

Open Scope list_scope.

(** ** Predicates and inputs of the further properties *)

(** Whether the [get_metric_data] request of a batch is answered. *)
Definition batch_answered (cw : cloudwatch_client) (start_time end_time : Z) (b : list pyval) : bool :=
  match get_metric_data cw (get_metric_data_kwargs b start_time end_time) with
  | Ok _ => true
  | Raise _ => false
  end.

(** The metric columns of the header, as (metric, is_peak) pairs, and the
    header of each: [f"{metric} (avg)"] then [f"{metric} (max)"]. *)
Definition metric_columns : list (string * bool) :=
  map (fun m => (m, false)) AVERAGE_METRICS ++ map (fun m => (m, true)) PEAK_METRICS.

Definition column_header (c : string * bool) : string :=
  (fst c ++ (if snd c then " (max)" else " (avg)"))%string.

(** One reading as [get_msk_cluster_data] asks for it (lines 381-391),
    with the serverless call's fifth positional argument [node_id]. *)
Definition metric_reading (cw : cloudwatch_client) (cluster_id : pyval) (cluster_type : string)
  (metric : string) (is_peak : bool) (node_id : Z) : M pyval :=
  if String.eqb cluster_type "PROVISIONED" then
    get_cloudwatch_metric cw cluster_id metric is_peak (Some node_id) METRIC_COLLECTION_PERIOD_DAYS
  else get_cloudwatch_serverless_metric cw cluster_id metric is_peak node_id.


(** A writer whose file operations all succeed. *)
Definition demo_xl : excel_engine := {|
  excel_open := fun _ => Ok tt;
  excel_write := fun _ _ _ => Ok tt;
  excel_save := fun _ => Ok tt
|}.

Definition pyval_ind' (P : pyval -> Prop)
  (HNone : P VNone) (HBool : forall b, P (VBool b)) (HInt : forall z, P (VInt z))
  (HStr : forall s, P (VStr s))
  (HList : forall l, Forall P l -> P (VList l))
  (HTuple : forall l, Forall P l -> P (VTuple l))
  (HDict : forall kv, Forall (fun e => P (snd e)) kv -> P (VDict kv)) : forall v, P v :=
  fix F (v : pyval) : P v :=
    match v with
    | VNone => HNone
    | VBool b => HBool b
    | VInt z => HInt z
    | VStr s => HStr s
    | VList l => HList l ((fix G (l : list pyval) : Forall P l :=
                            match l with [] => Forall_nil _ | x :: l' => Forall_cons _ (F x) (G l') end) l)
    | VTuple l => HTuple l ((fix G (l : list pyval) : Forall P l :=
                            match l with [] => Forall_nil _ | x :: l' => Forall_cons _ (F x) (G l') end) l)
    | VDict kv => HDict kv ((fix G (kv : list (string * pyval)) : Forall (fun e => P (snd e)) kv :=
                            match kv with [] => Forall_nil _ | e :: kv' => Forall_cons _ (F (snd e)) (G kv') end) kv)
    end.

Definition listed_cluster_ok (e : pyval * pyval) : Prop :=
  py_index (snd e) "State" = Ok (VStr "ACTIVE")
  /\ exists name, py_index (snd e) "ClusterName" = Ok name /\ pyval_eqb name (fst e) = true.

Definition listing_inv (d : list (pyval * pyval)) : Prop :=
  Forall listed_cluster_ok d /\ ForallOrdPairs (fun a b => pyval_eqb b a = false) (map fst d).

Definition keys_grow (a b : list (pyval * pyval)) : Prop := exists t, map fst b = map fst a ++ t.

Definition has_key (name : pyval) (d : list (pyval * pyval)) : Prop :=
  exists k, In k (map fst d) /\ pyval_eqb name k = true.

(** A series of [pages] that carries the cluster dimension with value
    [cluster_id] and a [Topic] dimension with value [t]. *)
Definition advertised (cluster_id : pyval) (pages : list pyval) (t : pyval) : Prop :=
  exists page metrics ms metric dims ds d1 v d2,
    In page pages /\ py_get page "Metrics" (VList []) = Ok metrics /\ py_iter metrics = Ok ms
    /\ In metric ms /\ py_get metric "Dimensions" (VList []) = Ok dims /\ py_iter dims = Ok ds
    /\ In d1 ds /\ py_index d1 "Name" = Ok (VStr cluster_dimension_key)
    /\ py_index d1 "Value" = Ok v /\ pyval_eqb v cluster_id = true
    /\ In d2 ds /\ py_index d2 "Name" = Ok (VStr "Topic") /\ py_index d2 "Value" = Ok t.

Definition topics_inv (cluster_id : pyval) (pages : list pyval) (topics : list pyval) : Prop :=
  ForallOrdPairs (fun a b => pyval_eqb b a = false) topics
  /\ Forall (fun t => hashable t = true /\ truthy t = true /\ advertised cluster_id pages t) topics.

Definition decimal_value (s : string) : nat :=
  fold_left (fun r c => r * 10 + (Ascii.nat_of_ascii c - 48)) (list_ascii_of_string s) 0.

Definition count_op (op : string) (calls : list call) : nat :=
  length (filter (fun c => String.eqb (call_op c) op) calls).

(** The calls [m] appends to the log, when it runs from [s] to [s']. *)
Definition appends (Q : call -> Prop) (op : string) (n : nat) (s s' : state) : Prop :=
  exists calls, s' = mkState (st_now s) (st_log s ++ calls)
                /\ Forall Q calls /\ count_op op calls = n.

(** [float(x)] on the integers used below. *)
Definition demo_py_float (v : pyval) : result Z :=
  match v with VInt z => Ok z | _ => Raise ValueError end.

Definition cost_group (usage_type : string) (amount : Z) : pyval :=
  VDict [("Keys", VList [VStr usage_type]);
         ("Metrics", VDict [("UnblendedCost", VDict [("Amount", VInt amount)])])].

(** One month with two usage types, costing 5 and 7. *)
Definition demo_ce : cost_explorer := {|
  get_cost_and_usage := fun _ =>
    Ok (VDict [("ResultsByTime", VList [
          VDict [("TimePeriod", VDict [("Start", VStr "2024-02-01"); ("End", VStr "2024-02-29")]);
                 ("Groups", VList [cost_group "USE1-Kafka.m5.large" 5; cost_group "USE1-Kafka.Storage" 7])]])])
|}.

Definition demo_costs : list cost_row :=
  [mkCost (VStr "2024-02-01") (VStr "USE1-Kafka.m5.large") 5;
   mkCost (VStr "2024-02-01") (VStr "USE1-Kafka.Storage") 7;
   mkCost (VStr "TOTAL") (VStr "ALL") 12].


(** ** Batching *)

Open Scope list_scope.

Lemma firstn_add_skipn {A} (a b : nat) (l : list A) :
  firstn (a + b) l = firstn a l ++ firstn b (skipn a l).
Proof.
  revert l; induction a as [|a IH]; intros [|x l]; simpl; auto.
  - now rewrite firstn_nil.
  - now rewrite IH.
Qed.

Lemma concat_chunks {A} (s m : nat) (l : list A) :
  concat (map (fun k => firstn s (skipn (k * s) l)) (seq 0 m)) = firstn (m * s) l.
Proof.
  induction m as [|m IH]; [reflexivity|].
  rewrite seq_S, map_app, concat_app, IH; simpl.
  rewrite app_nil_r, <- firstn_add_skipn.
  f_equal; lia.
Qed.

Lemma batches_chunks {A} (qs : list A) :
  batches qs = map (fun k => firstn max_queries_per_call (skipn (k * max_queries_per_call) qs))
                   (seq 0 ((length qs + max_queries_per_call - 1) / max_queries_per_call)).
Proof.
  unfold batches, py_range_step, py_slice.
  rewrite map_map, Nat.sub_0_r.
  apply map_ext; intros k.
  f_equal; try f_equal; lia.
Qed.

Lemma chunk_count_covers (n : nat) :
  n <= (n + max_queries_per_call - 1) / max_queries_per_call * max_queries_per_call.
Proof.
  unfold max_queries_per_call.
  pose proof (Nat.div_mod_eq (n + 500 - 1) 500) as Hd.
  pose proof (Nat.mod_upper_bound (n + 500 - 1) 500 ltac:(lia)) as Hm.
  set (q := (n + 500 - 1) / 500) in *; set (r := (n + 500 - 1) mod 500) in *.
  lia.
Qed.

(** C4: the batches, concatenated in submission order, are the queries;
    no batch holds more than 500 queries. *)
Theorem batches_partition {A} (metric_data_queries : list A) :
  concat (batches metric_data_queries) = metric_data_queries
  /\ Forall (fun b => length b <= 500) (batches metric_data_queries).
Proof.
  split.
  - rewrite batches_chunks, concat_chunks.
    apply firstn_all2, chunk_count_covers.
  - rewrite batches_chunks.
    apply Forall_forall; intros b Hb.
    apply in_map_iff in Hb as [k [<- _]].
    apply firstn_le_length.
Qed.

(** ** The serverless sum *)

Lemma add_result_topic (values : pyval -> list Z) (a : Z) (q : pyval) :
  add_result (VInt a) (topic_result values q) = Ok (VInt (a + hd 0%Z (values (query_topic q)))).
Proof.
  unfold add_result, topic_result.
  destruct (values (query_topic q)) as [|v vs]; cbn.
  - destruct (py_index q "Id"); cbn; now rewrite Z.add_0_r.
  - reflexivity.
Qed.

Lemma add_results_topic (values : pyval -> list Z) (qs : list pyval) (a : Z) :
  add_results (VInt a) (map (topic_result values) qs)
  = (VInt (a + sum_Z (map (fun q => hd 0%Z (values (query_topic q))) qs)), None).
Proof.
  revert a; induction qs as [|q qs IH]; intros a; cbn [add_results map fold_right sum_Z].
  - now rewrite Z.add_0_r.
  - rewrite add_result_topic, IH. unfold sum_Z. cbn [fold_right]. now rewrite Z.add_assoc.
Qed.

Lemma query_topic_metric_data_query cid m p st i t :
  query_topic (metric_data_query cid m p st i t) = t.
Proof. reflexivity. Qed.

Lemma map_snd_enumerate {A B} (f : A -> B) (l : list A) :
  map (fun it => f (snd it)) (enumerate l) = map f l.
Proof.
  unfold enumerate. generalize 0.
  induction l as [|x l IH]; intros k; cbn; [reflexivity|]. now rewrite IH.
Qed.

Section TopicBackend.
  Variable cw : cloudwatch_client.
  Variable values : pyval -> list Z.
  Hypothesis answers : forall batch_queries start_time end_time,
    get_metric_data cw (get_metric_data_kwargs batch_queries start_time end_time)
    = Ok (VDict [("MetricDataResults", VList (map (topic_result values) batch_queries))]).

Lemma run_batches_topic (start_time end_time : Z) (bs : list (list pyval)) :
    forall a s,
      fst (run_batches cw start_time end_time (VInt a) bs s)
      = Ok (VInt (a + sum_Z (map (fun q => hd 0%Z (values (query_topic q))) (concat bs)))).
  Proof.
    induction bs as [|b bs IH]; intros a s.
    - cbn. now rewrite Z.add_0_r.
    - cbn [run_batches concat]. unfold bind at 1, run_batch, try_M, bind, backend.
      rewrite answers. cbn [fst add_response py_get assoc].
      unfold add_response. cbn. rewrite add_results_topic. cbn [fst].
      rewrite IH, map_app. unfold sum_Z. rewrite fold_right_app.
      f_equal. f_equal. 
      set (l1 := map _ b). set (l2 := map _ (concat bs)).
      assert (forall x l, fold_right Z.add x l = (x + fold_right Z.add 0 l)%Z) as Hf.
      { intros x l; induction l; cbn; lia. }
      rewrite (Hf (fold_right Z.add 0%Z l2)). lia.
  Qed.
End TopicBackend.

Lemma scan_pages_ok params cluster_id pages :
  forall topics s topics',
    fold_result (scan_page cluster_id) topics pages = Ok topics' ->
    scan_pages params cluster_id topics pages s
    = (Ok topics', mkState (st_now s)
                      (st_log s ++ repeat (mkCall "list_metrics" params) (length pages))).
Proof.
  induction pages as [|page pages IH]; intros topics s topics' H; cbn in H |- *.
  - injection H as <-. rewrite app_nil_r. destruct s; reflexivity.
  - unfold bind, backend, liftR.
    destruct (scan_page cluster_id topics page) as [t1|e]; cbn [rbind] in H; [|discriminate H].
    rewrite (IH t1 _ _ H). cbn [st_now st_log]. rewrite <- app_assoc. reflexivity.
Qed.

Lemma scan_pages_log params cluster_id pages :
  forall topics s r s',
    scan_pages params cluster_id topics pages s = (r, s') ->
    exists k, s' = mkState (st_now s) (st_log s ++ repeat (mkCall "list_metrics" params) k).
Proof.
  induction pages as [|page pages IH]; intros topics s r s' H; cbn in H.
  - injection H as _ <-. exists 0. rewrite app_nil_r. destruct s; reflexivity.
  - unfold bind, backend, liftR in H.
    destruct (scan_page cluster_id topics page) as [t1|e].
    + apply IH in H as [k ->]. exists (S k). cbn [st_now st_log]. rewrite <- app_assoc. reflexivity.
    + injection H as _ <-. exists 1. reflexivity.
Qed.

(** C1: on a backend holding at most one datapoint per topic series,
    the serverless reduction returns the sum over the discovered topic set
    of each topic's datapoint, a topic without datapoint counting 0; with
    no topic discovered the sum, and the result, is 0. *)
Theorem serverless_sum_over_topics (cw : cloudwatch_client) (cluster_id : pyval)
  (metric_name : string) (is_peak : bool) (time_period : Z) (s : state)
  (pages topics : list pyval) (values : pyval -> list Z) :
  list_metrics cw (list_metrics_params cluster_id metric_name) = Ok pages ->
  discover_topics cluster_id pages = Ok topics ->
  (forall batch_queries start_time end_time,
      get_metric_data cw (get_metric_data_kwargs batch_queries start_time end_time)
      = Ok (VDict [("MetricDataResults", VList (map (topic_result values) batch_queries))])) ->
  (forall t, In t topics -> length (values t) <= 1) ->
  fst (get_cloudwatch_serverless_metric cw cluster_id metric_name is_peak time_period s)
  = Ok (VInt (sum_Z (map (fun t => single_value (values t)) topics))).
Proof.
  intros Hlist Hdisc Hanswers Hsingle.
  unfold get_cloudwatch_serverless_metric, bind at 1, now.
  unfold bind at 1, try_M, bind, backend, liftR, ret.
  rewrite Hlist, (scan_pages_ok _ _ _ _ _ _ Hdisc).
  destruct topics as [|t ts]; [reflexivity|].
  remember (map _ (enumerate (t :: ts))) as qs eqn:Hq.
  destruct qs as [|q qs']; [discriminate Hq|].
  change (VInt 0) with (VInt (0 + 0)).
  rewrite run_batches_topic with (values := values) by exact Hanswers.
  rewrite (proj1 (batches_partition _)).
  rewrite Hq, map_map.
  cbn [fst]. rewrite Z.add_0_l.
  rewrite (map_ext _ (fun it => hd 0%Z (values (snd it)))) by (intros; reflexivity).
  rewrite (map_snd_enumerate (fun t => hd 0%Z (values t))).
  do 3 f_equal. apply map_ext_in. intros x Hx.
  specialize (Hsingle x Hx).
  destruct (values x) as [|v [|w vs]]; cbn in *; auto; lia.
Qed.

(** ** Only the first datapoint counts *)

Lemma assoc_update_same k f kv :
  assoc k (map (update_entry k f) kv) = option_map f (assoc k kv).
Proof.
  induction kv as [|[k' v] kv IH]; cbn; [reflexivity|].
  unfold update_entry; cbn.
  destruct (String.eqb k k') eqn:E; cbn; rewrite ?E; auto.
Qed.

Lemma assoc_update_other k k' f kv :
  k' <> k -> assoc k' (map (update_entry k f) kv) = assoc k' kv.
Proof.
  intros Hne. induction kv as [|[k'' v] kv IH]; cbn; [reflexivity|].
  unfold update_entry; cbn.
  destruct (String.eqb k k'') eqn:E; cbn.
  - apply String.eqb_eq in E; subst k''.
    destruct (String.eqb k' k) eqn:E'; [apply String.eqb_eq in E'; congruence|assumption].
  - destruct (String.eqb k' k''); auto.
Qed.

Lemma add_result_first_only acc r :
  add_result acc (map_key "Values" first_only r) = add_result acc r.
Proof.
  destruct r as [| | | | | |kv]; try reflexivity.
  unfold add_result, map_key, py_get, py_index.
  rewrite assoc_update_same, (assoc_update_other "Values" "Id") by discriminate.
  destruct (assoc "Values" kv) as [v|]; cbn; [|reflexivity].
  destruct v as [| | | |[|x l]|[|x l]|]; reflexivity.
Qed.

Lemma add_results_first_only acc rs :
  add_results acc (map (map_key "Values" first_only) rs) = add_results acc rs.
Proof.
  revert acc; induction rs as [|r rs IH]; intros acc; cbn [add_results map]; [reflexivity|].
  rewrite add_result_first_only. destruct (add_result acc r); auto.
Qed.

Lemma add_response_first_only acc resp :
  add_response acc (map_key "MetricDataResults" (map_items (map_key "Values" first_only)) resp)
  = add_response acc resp.
Proof.
  destruct resp as [| | | | | |kv]; try reflexivity.
  unfold add_response, map_key, py_get.
  rewrite assoc_update_same.
  destruct (assoc "MetricDataResults" kv) as [v|]; cbn; [|reflexivity].
  destruct v; cbn; try reflexivity; apply add_results_first_only.
Qed.

Lemma run_batches_first_only cw st en bs :
  forall acc s,
    run_batches (first_datapoints cw) st en acc bs s = run_batches cw st en acc bs s.
Proof.
  induction bs as [|b bs IH]; intros acc s; [reflexivity|].
  cbn [run_batches]. unfold run_batch, try_M, bind, backend, ret.
  cbn [get_metric_data first_datapoints].
  destruct (get_metric_data cw _); cbn [rmap].
  - rewrite add_response_first_only. apply IH.
  - apply IH.
Qed.

Lemma serverless_first_only cw cluster_id metric_name is_peak time_period s :
  get_cloudwatch_serverless_metric (first_datapoints cw) cluster_id metric_name is_peak time_period s
  = get_cloudwatch_serverless_metric cw cluster_id metric_name is_peak time_period s.
Proof.
  unfold get_cloudwatch_serverless_metric, now, try_M, bind, backend, liftR, ret.
  cbn [list_metrics first_datapoints].
  destruct (list_metrics cw _); [|reflexivity].
  destruct (scan_pages _ cluster_id [] a _) as [[[|t ts]|] s1]; try reflexivity.
  destruct (map _ (enumerate (t :: ts))); [reflexivity|].
  apply run_batches_first_only.
Qed.

Lemma provisioned_first_only cw cluster_id metric_name is_peak node time_period s :
  get_cloudwatch_metric (first_datapoints cw) cluster_id metric_name is_peak node time_period s
  = get_cloudwatch_metric cw cluster_id metric_name is_peak node time_period s.
Proof.
  unfold get_cloudwatch_metric, bind, now, backend, liftR, ret.
  cbn [get_metric_statistics first_datapoints].
  destruct (get_metric_statistics cw _) as [resp|e]; cbn [rmap]; [|reflexivity].
  destruct resp as [| | | | | |kv]; try reflexivity.
  unfold map_key, py_get, py_index. rewrite assoc_update_same.
  destruct (assoc "Datapoints" kv) as [v|]; cbn; [|reflexivity].
  destruct v as [| | | |[|x l]|[|x l]|]; reflexivity.
Qed.

Lemma run_batches_ok cw st en bs :
  forall acc s, exists v, fst (run_batches cw st en acc bs s) = Ok v.
Proof.
  induction bs as [|b bs IH]; intros acc s; [eexists; reflexivity|].
  cbn [run_batches]. unfold run_batch, try_M, bind, backend, ret.
  destruct (get_metric_data cw _); apply IH.
Qed.

(** C2: with a single datapoint in the seven-day response, the provisioned
    reduction returns its [Maximum] (peak) or [Average] field; with no
    datapoint it returns 0. *)
Theorem provisioned_single_datapoint (cw : cloudwatch_client) (cluster_id : pyval)
  (metric_name : string) (is_peak : bool) (node : option Z) (time_period : Z) (s : state)
  (response : pyval) :
  get_metric_statistics cw
    (get_metric_statistics_kwargs metric_name (metric_dimensions cluster_id metric_name node)
       (st_now s - time_period * 86400) (st_now s) (time_period * 24 * 60 * 60)
       (if is_peak then ["Maximum"] else ["Average"])) = Ok response ->
  (forall datapoint v,
      py_get response "Datapoints" VNone = Ok (VList [datapoint]) ->
      py_index datapoint (if is_peak then "Maximum" else "Average") = Ok v ->
      fst (get_cloudwatch_metric cw cluster_id metric_name is_peak node time_period s) = Ok v)
  /\ (py_get response "Datapoints" VNone = Ok (VList []) ->
      fst (get_cloudwatch_metric cw cluster_id metric_name is_peak node time_period s) = Ok (VInt 0)).
Proof.
  intros Hresp.
  unfold get_cloudwatch_metric, now, bind, backend, liftR, ret.
  rewrite Hresp.
  split.
  - intros datapoint v Hdps Hv. rewrite Hdps. cbn [truthy negb fst].
    destruct response as [| | | | | |kv]; try discriminate Hdps.
    unfold py_get in Hdps; unfold py_index at 1.
    destruct (assoc "Datapoints" kv); [|discriminate Hdps].
    injection Hdps as ->. cbn [rbind]. exact Hv.
  - intros Hdps. rewrite Hdps. reflexivity.
Qed.

Lemma provisioned_single_datapoint_witness :
  fst (get_cloudwatch_metric demo_cw (VStr "demo-msk") "BytesInPerSec" false (Some 1%Z)
         METRIC_COLLECTION_PERIOD_DAYS demo_state) = Ok (VInt 100).
Proof.
  apply (proj1 (provisioned_single_datapoint demo_cw (VStr "demo-msk") "BytesInPerSec" false
                  (Some 1%Z) METRIC_COLLECTION_PERIOD_DAYS demo_state
                  (VDict [("Datapoints", VList [VDict [("Average", VInt 100); ("Maximum", VInt 120)]])])
                  eq_refl)
           (VDict [("Average", VInt 100); ("Maximum", VInt 120)]) (VInt 100)); reflexivity.
Defined.

(** ** Rows *)

Ltac rbind_inv H :=
  repeat match type of H with
  | rbind ?r _ = _ =>
      let E := fresh "E" in destruct r eqn:E; cbn [rbind] in H; [|discriminate H]
  | (if ?b then _ else _) = _ => let E := fresh "E" in destruct b eqn:E
  end.

Lemma mapM_Forall2 {A B} (f : A -> M B) (l : list A) :
  forall s ys s', mapM f l s = (Ok ys, s') ->
  Forall2 (fun x y => exists s1 s2, f x s1 = (Ok y, s2)) l ys.
Proof.
  induction l as [|x l IH]; intros s ys s' H; cbn in H.
  - injection H as <- _. constructor.
  - unfold bind in H.
    destruct (f x s) as [[y|e] s1] eqn:Ef; [|discriminate H].
    destruct (mapM f l s1) as [[ys0|e] s2] eqn:El; [|discriminate H].
    unfold ret in H. injection H as <- _.
    constructor; [eauto|eapply IH; eauto].
Qed.

Lemma Forall2_length' {A B} (R : A -> B -> Prop) l1 l2 :
  Forall2 R l1 l2 -> length l2 = length l1.
Proof. intros H; induction H; cbn; auto. Qed.

Lemma describe_cluster_shape region cluster_id details d :
  describe_cluster region cluster_id details = Ok d ->
  (exists az auth kafka_version monitoring,
      cd_base_info d = [VStr region; cluster_id; az; VStr auth; kafka_version; monitoring])
  /\ rbind (py_get details "ClusterType" (VStr "CLUSTERLESS")) py_upper = Ok (cd_type d)
  /\ (String.eqb (cd_type d) "PROVISIONED" = true ->
      rbind (py_index details "Provisioned") (fun p => py_index p "NumberOfBrokerNodes")
      = Ok (cd_number_of_broker_nodes d))
  /\ (String.eqb (cd_type d) "PROVISIONED" = false -> cd_number_of_broker_nodes d = VInt 1).
Proof.
  intros H. unfold describe_cluster in H.
  rbind_inv H; injection H as <-; cbn [cd_base_info cd_type cd_number_of_broker_nodes];
    (split; [do 4 eexists; reflexivity|]); (split; [assumption|]);
    split; intros; try assumption; try congruence; reflexivity.
Qed.

Lemma metric_cells_length cw cluster_id cluster_type node_id s cells s' :
  metric_cells cw cluster_id cluster_type node_id s = (Ok cells, s') ->
  length cells = length AVERAGE_METRICS + length PEAK_METRICS.
Proof.
  intros H. unfold metric_cells in H.
  destruct (String.eqb cluster_type "PROVISIONED"); unfold bind in H;
  match type of H with
  | match mapM ?f ?l ?s0 with _ => _ end = _ =>
      destruct (mapM f l s0) as [[avg|e] s1] eqn:E1; [|discriminate H]
  end;
  match type of H with
  | match mapM ?f ?l ?s0 with _ => _ end = _ =>
      destruct (mapM f l s0) as [[peak|e] s2] eqn:E2; [|discriminate H]
  end;
  unfold ret in H; injection H as <- _;
  rewrite length_app;
  apply mapM_Forall2, Forall2_length' in E1;
  apply mapM_Forall2, Forall2_length' in E2; lia.
Qed.

Lemma node_rows_written cw cluster_id d ids :
  forall s rows s', node_rows cw cluster_id d true ids s = (Ok rows, s') ->
  Forall2 (fun node_id row => exists cells,
             length cells = length AVERAGE_METRICS + length PEAK_METRICS
             /\ row = repeat (VStr EmptyString) (length CLUSTER_INFO)
                      ++ [VInt node_id; cd_instance_type d; cd_volume_size d] ++ cells)
          ids rows.
Proof.
  induction ids as [|nid ids IH]; intros s rows s' H; cbn [node_rows] in H.
  - injection H as <- _. constructor.
  - unfold bind in H.
    destruct (metric_cells cw cluster_id (cd_type d) nid s) as [[cells|e] s1] eqn:Ec; [|discriminate H].
    destruct (node_rows cw cluster_id d true ids s1) as [[rows0|e] s2] eqn:Er; [|discriminate H].
    unfold ret in H; injection H as <- _.
    constructor; [|eapply IH; eauto].
    exists cells; split; [eapply metric_cells_length; eauto|reflexivity].
Qed.

Lemma node_rows_first cw cluster_id d nid ids s rows s' :
  node_rows cw cluster_id d false (nid :: ids) s = (Ok rows, s') ->
  exists cells row1 rest,
    rows = row1 :: rest
    /\ length cells = length AVERAGE_METRICS + length PEAK_METRICS
    /\ row1 = cd_base_info d ++ [VInt nid; cd_instance_type d; cd_volume_size d] ++ cells
    /\ Forall2 (fun node_id row => exists cells,
                  length cells = length AVERAGE_METRICS + length PEAK_METRICS
                  /\ row = repeat (VStr EmptyString) (length CLUSTER_INFO)
                           ++ [VInt node_id; cd_instance_type d; cd_volume_size d] ++ cells)
               ids rest.
Proof.
  intros H; cbn [node_rows] in H. unfold bind in H.
  destruct (metric_cells cw cluster_id (cd_type d) nid s) as [[cells|e] s1] eqn:Ec; [|discriminate H].
  destruct (node_rows cw cluster_id d true ids s1) as [[rest|e] s2] eqn:Er; [|discriminate H].
  unfold ret in H; injection H as <- _.
  exists cells; eexists; exists rest. split; [reflexivity|]. split; [eapply metric_cells_length; eauto|].
  split; [reflexivity|]. eapply node_rows_written; eauto.
Qed.

Lemma node_ids_length d ids :
  node_ids d = Ok ids ->
  exists n, int_value (if String.eqb (cd_type d) "PROVISIONED" then cd_number_of_broker_nodes d else VInt 1)
            = Some n /\ length ids = Z.to_nat n.
Proof.
  unfold node_ids, py_add.
  destruct (int_value (if String.eqb (cd_type d) "PROVISIONED" then cd_number_of_broker_nodes d else VInt 1))
    as [n|]; [|discriminate].
  cbn. intros H; injection H as <-.
  exists n; split; [reflexivity|].
  unfold py_range. rewrite length_map, length_seq. f_equal; lia.
Qed.


Lemma cluster_rows_inv cw region cluster_id details s rows s' :
  cluster_rows cw region (cluster_id, details) s = (Ok rows, s') ->
  exists d ids, describe_cluster region cluster_id details = Ok d /\ node_ids d = Ok ids
                /\ node_rows cw cluster_id d false ids s = (Ok rows, s').
Proof.
  unfold cluster_rows, bind, liftR.
  destruct (describe_cluster region cluster_id details) as [d|e] eqn:Ed; [|discriminate].
  destruct (node_ids d) as [ids|e] eqn:Ei; [|discriminate].
  intros; exists d, ids; auto.
Qed.

Lemma cluster_rows_layout cw region entry s block s' :
  cluster_rows cw region entry s = (Ok block, s') -> Forall row_layout block.
Proof.
  destruct entry as [cluster_id details]. intros H.
  apply cluster_rows_inv in H as (d & ids & Hd & _ & Hr).
  destruct (describe_cluster_shape _ _ _ _ Hd) as [(az & auth & kv & em & Hb) _].
  destruct ids as [|nid ids].
  - cbn in Hr. injection Hr as <- _. constructor.
  - apply node_rows_first in Hr as (cells & row1 & rest & -> & Hc & -> & Hrest).
    constructor.
    + exists (cd_base_info d), nid, (cd_instance_type d), (cd_volume_size d), cells.
      rewrite Hb. auto.
    + clear - Hrest. induction Hrest as [|nid' row ids rows (cells' & Hc' & ->) _ IH]; constructor; auto.
      exists (repeat (VStr EmptyString) (length CLUSTER_INFO)), nid', (cd_instance_type d), (cd_volume_size d), cells'.
      rewrite repeat_length. auto.
Qed.

Lemma get_msk_cluster_rows_inv cw kafka region s rows s' :
  get_msk_cluster_rows cw kafka region s = (Ok rows, s') ->
  exists clusters s1 blocks, get_msk_clusters kafka s = (Ok clusters, s1)
    /\ rows = concat blocks
    /\ Forall2 (fun entry block => exists s2 s3, cluster_rows cw region entry s2 = (Ok block, s3))
               clusters blocks.
Proof.
  unfold get_msk_cluster_rows, bind at 1. intros H.
  destruct (get_msk_clusters kafka s) as [[clusters|e] s1] eqn:Ec; [|discriminate H].
  unfold bind in H.
  destruct (mapM (cluster_rows cw region) clusters s1) as [[blocks|e] s2] eqn:Eb; [|discriminate H].
  unfold ret in H. injection H as <- _.
  exists clusters, s1, blocks. split; [reflexivity|]. split; [reflexivity|].
  eapply mapM_Forall2; eauto.
Qed.

Lemma Forall2_in_r {A B} (R : A -> B -> Prop) l1 l2 y :
  Forall2 R l1 l2 -> In y l2 -> exists x, In x l1 /\ R x y.
Proof.
  intros H; induction H as [|x y' l1 l2 Hxy _ IH]; intros Hy; [destruct Hy|].
  destruct Hy as [<-|Hy]; [exists x; split; [left|]; auto|].
  destruct (IH Hy) as (x' & Hx' & Hr). exists x'; split; [right|]; auto.
Qed.

Lemma Forall2_map_l {A B C} (f : A -> C) (R : C -> B -> Prop) l1 l2 :
  Forall2 (fun x y => R (f x) y) l1 l2 -> Forall2 R (map f l1) l2.
Proof. induction 1; constructor; auto. Qed.

Lemma metric_columns_headers : skipn 9 create_dataframe_columns = map column_header metric_columns.
Proof. reflexivity. Qed.

Lemma metric_cells_readings cw cluster_id cluster_type node_id s cells s' :
  metric_cells cw cluster_id cluster_type node_id s = (Ok cells, s') ->
  Forall2 (fun c cell => exists s0 s1,
             metric_reading cw cluster_id cluster_type (fst c) (snd c) node_id s0 = (Ok cell, s1))
          metric_columns cells.
Proof.
  intros H. unfold metric_cells in H. unfold metric_reading, metric_columns.
  destruct (String.eqb cluster_type "PROVISIONED"); unfold bind in H;
  match type of H with
  | match mapM ?f ?l ?s0 with _ => _ end = _ =>
      destruct (mapM f l s0) as [[avg|e] s1] eqn:E1; [|discriminate H]
  end;
  match type of H with
  | match mapM ?f ?l ?s0 with _ => _ end = _ =>
      destruct (mapM f l s0) as [[peak|e] s2] eqn:E2; [|discriminate H]
  end;
  unfold ret in H; injection H as <- _;
  apply Forall2_app; apply Forall2_map_l;
  [exact (mapM_Forall2 _ _ _ _ _ E1)|exact (mapM_Forall2 _ _ _ _ _ E2)
  |exact (mapM_Forall2 _ _ _ _ _ E1)|exact (mapM_Forall2 _ _ _ _ _ E2)].
Qed.

Lemma node_rows_readings cw cluster_id d ids :
  length (cd_base_info d) = length CLUSTER_INFO ->
  forall w s rows s', node_rows cw cluster_id d w ids s = (Ok rows, s') ->
  Forall2 (fun node_id row =>
             nth 6 row VNone = VInt node_id
             /\ Forall2 (fun c cell => exists s0 s1,
                           metric_reading cw cluster_id (cd_type d) (fst c) (snd c) node_id s0 = (Ok cell, s1))
                        metric_columns (skipn 9 row)) ids rows.
Proof.
  intros Hb. induction ids as [|nid ids IH]; intros w s rows s' H; cbn [node_rows] in H.
  - injection H as <- _. constructor.
  - unfold bind in H.
    destruct (metric_cells cw cluster_id (cd_type d) nid s) as [[cells|e] s1] eqn:Ec; [|discriminate H].
    destruct (node_rows cw cluster_id d true ids s1) as [[rows0|e] s2] eqn:Er; [|discriminate H].
    unfold ret in H; injection H as <- _.
    constructor; [|exact (IH true s1 rows0 s2 Er)].
    match goal with |- context [nth 6 (?cp ++ _) _] =>
      assert (Hl : length cp = 6) by (destruct w; [reflexivity|exact Hb])
    end.
    split.
    + rewrite app_nth2 by (rewrite Hl; lia). rewrite Hl. reflexivity.
    + rewrite skipn_app, skipn_all2 by (rewrite Hl; lia). rewrite Hl. cbn [app].
      replace (skipn (9 - 6) _) with cells by reflexivity.
      exact (metric_cells_readings _ _ _ _ _ _ _ Ec).
Qed.

(** C6: every row of a run has as many cells as the header, laid out as
    the six cluster fields, the three node fields, then the metric cells in
    header order: the cell under ["<metric> (avg)"] or ["<metric> (max)"] is
    a reading of that metric with that aggregation for the row's cluster and
    node, for either topology. A metric with no series for a serverless
    cluster, or no datapoint for a provisioned one, is read as zero: the
    cell is kept. *)
Theorem rows_share_columns :
  (forall cw kafka region s rows s',
     get_msk_cluster_rows cw kafka region s = (Ok rows, s') ->
     exists clusters s1, get_msk_clusters kafka s = (Ok clusters, s1)
     /\ Forall (fun row =>
          length row = length create_dataframe_columns /\ row_layout row
          /\ exists cluster_id details d node_id,
               In (cluster_id, details) clusters /\ describe_cluster region cluster_id details = Ok d
               /\ nth 6 row VNone = VInt node_id
               /\ Forall2 (fun col cell => exists metric (is_peak : bool) s2 s3,
                             col = (metric ++ (if is_peak then " (max)" else " (avg)"))%string
                             /\ metric_reading cw cluster_id (cd_type d) metric is_peak node_id s2 = (Ok cell, s3))
                          (skipn 9 create_dataframe_columns) (skipn 9 row)) rows)
  /\ (forall cw cluster_id cluster_type metric is_peak node_id s pages,
        String.eqb cluster_type "PROVISIONED" = false ->
        list_metrics cw (list_metrics_params cluster_id metric) = Ok pages ->
        discover_topics cluster_id pages = Ok [] ->
        fst (metric_reading cw cluster_id cluster_type metric is_peak node_id s) = Ok (VInt 0))
  /\ (forall cw cluster_id metric (is_peak : bool) node_id s response dps,
        get_metric_statistics cw
          (get_metric_statistics_kwargs metric (metric_dimensions cluster_id metric (Some node_id))
             (st_now s - METRIC_COLLECTION_PERIOD_DAYS * 86400) (st_now s)
             (METRIC_COLLECTION_PERIOD_DAYS * 24 * 60 * 60) (if is_peak then ["Maximum"] else ["Average"]))
        = Ok response ->
        py_get response "Datapoints" VNone = Ok dps -> truthy dps = false ->
        fst (metric_reading cw cluster_id "PROVISIONED" metric is_peak node_id s) = Ok (VInt 0)).
Proof.
  split; [|split].
  - intros cw kafka region s rows s' H.
    apply get_msk_cluster_rows_inv in H as (clusters & s1 & blocks & Hc & -> & Hb).
    exists clusters, s1. split; [exact Hc|].
    apply Forall_forall. intros row Hrow.
    apply in_concat in Hrow as (block & Hblock & Hrow).
    destruct (Forall2_in_r _ _ _ _ Hb Hblock) as ([cluster_id details] & Hin & s2 & s3 & Hcr).
    pose proof (proj1 (Forall_forall _ _) (cluster_rows_layout _ _ _ _ _ _ Hcr) row Hrow) as Hl.
    split.
    { destruct Hl as (cp & nid & it & vs & cells & -> & Hcp & Hcells).
      rewrite !length_app, Hcp, Hcells. reflexivity. }
    split; [exact Hl|].
    apply cluster_rows_inv in Hcr as (d & ids & Hd & _ & Hr).
    destruct (describe_cluster_shape _ _ _ _ Hd) as [(az & auth & kv & em & Hbase) _].
    assert (Hrd : Forall2 _ ids block)
      by (eapply node_rows_readings; [rewrite Hbase; reflexivity|exact Hr]).
    destruct (Forall2_in_r _ _ _ _ Hrd Hrow) as (nid & _ & H6 & Hcells).
    exists cluster_id, details, d, nid. split; [exact Hin|]. split; [exact Hd|]. split; [exact H6|].
    rewrite metric_columns_headers. apply Forall2_map_l.
    eapply Forall2_impl; [|exact Hcells].
    intros [m p] cell (s4 & s5 & Hm). exists m, p, s4, s5. split; [reflexivity|exact Hm].
  - intros cw cluster_id cluster_type metric is_peak node_id s pages Ht Hl Hd.
    unfold metric_reading. rewrite Ht.
    unfold get_cloudwatch_serverless_metric, now, try_M, bind at 1 2.
    cbn [fst snd st_now]. rewrite Hl. unfold bind at 1.
    rewrite (scan_pages_ok _ _ _ _ _ _ Hd). reflexivity.
  - intros cw cluster_id metric is_peak node_id s response dps Hg Hp Ht.
    unfold metric_reading. cbn [String.eqb Ascii.eqb Bool.eqb].
    unfold get_cloudwatch_metric, now, bind, backend, liftR, ret. cbn [fst snd st_now].
    rewrite Hg, Hp, Ht. reflexivity.
Qed.

Lemma node_rows_count cw cluster_id d ids s rows s' :
  node_rows cw cluster_id d false ids s = (Ok rows, s') -> length rows = length ids.
Proof.
  destruct ids as [|nid ids]; intros Hr.
  - cbn in Hr. injection Hr as <- _. reflexivity.
  - apply node_rows_first in Hr as (cells & row1 & rest & -> & _ & _ & Hrest).
    cbn. f_equal. eapply Forall2_length'. exact Hrest.
Qed.

Lemma cluster_rows_count cw region cluster_id details s block s' :
  cluster_rows cw region (cluster_id, details) s = (Ok block, s') ->
  length block = declared_node_count details.
Proof.
  intros H. apply cluster_rows_inv in H as (d & ids & Hd & Hi & Hr).
  rewrite (node_rows_count _ _ _ _ _ _ _ Hr).
  destruct (node_ids_length _ _ Hi) as (n & Hn & ->).
  destruct (describe_cluster_shape _ _ _ _ Hd) as (_ & Ht & Hp & Hs).
  unfold declared_node_count. rewrite Ht.
  destruct (String.eqb (cd_type d) "PROVISIONED") eqn:E.
  - rewrite (Hp eq_refl), Hn. reflexivity.
  - cbn in Hn. injection Hn as <-. reflexivity.
Qed.

(** C7: the rows of a run are the concatenation, cluster by cluster, of
    blocks whose length is the cluster's declared node count (one for a
    serverless cluster, [NumberOfBrokerNodes] for a provisioned one). *)
Theorem rows_per_cluster cw kafka region s rows s' :
  get_msk_cluster_rows cw kafka region s = (Ok rows, s') ->
  exists clusters blocks,
    fst (get_msk_clusters kafka s) = Ok clusters
    /\ rows = concat blocks
    /\ Forall2 (fun entry block => length block = declared_node_count (snd entry)) clusters blocks.
Proof.
  intros H. apply get_msk_cluster_rows_inv in H as (clusters & s1 & blocks & Hc & -> & Hb).
  exists clusters, blocks. rewrite Hc. split; [reflexivity|]. split; [reflexivity|].
  eapply Forall2_impl; [|exact Hb].
  intros [cluster_id details] block (s2 & s3 & Hr). eapply cluster_rows_count; eauto.
Qed.

Lemma firstn_cluster_part (cp : list pyval) rest :
  length cp = length CLUSTER_INFO -> firstn (length CLUSTER_INFO) (cp ++ rest) = cp.
Proof.
  intros H. rewrite <- H, firstn_app, Nat.sub_diag, firstn_all. cbn. apply app_nil_r.
Qed.

(** C8: when a cluster yields more than one row, the first carries the
    cluster fields (region, name, availability, authentication, version,
    monitoring) and every further row has the empty string in each of the
    six cluster columns. *)
Theorem first_row_carries_cluster_fields cw region cluster_id details s rows s' :
  cluster_rows cw region (cluster_id, details) s = (Ok rows, s') ->
  1 < length rows ->
  exists d row1 rest,
    describe_cluster region cluster_id details = Ok d
    /\ rows = row1 :: rest
    /\ firstn (length CLUSTER_INFO) row1 = cd_base_info d
    /\ (exists az auth kafka_version monitoring,
          cd_base_info d = [VStr region; cluster_id; az; VStr auth; kafka_version; monitoring])
    /\ Forall (fun row => firstn (length CLUSTER_INFO) row = repeat (VStr EmptyString) (length CLUSTER_INFO))
              rest.
Proof.
  intros H Hk. apply cluster_rows_inv in H as (d & ids & Hd & _ & Hr).
  destruct (describe_cluster_shape _ _ _ _ Hd) as [Hb _].
  destruct ids as [|nid ids]; [cbn in Hr; injection Hr as <- _; cbn in Hk; lia|].
  apply node_rows_first in Hr as (cells & row1 & rest & -> & _ & -> & Hrest).
  exists d, (cd_base_info d ++ [VInt nid; cd_instance_type d; cd_volume_size d] ++ cells), rest.
  split; [exact Hd|]. split; [reflexivity|].
  split; [apply firstn_cluster_part; destruct Hb as (? & ? & ? & ? & ->); reflexivity|].
  split; [exact Hb|].
  clear - Hrest. induction Hrest as [|nid' row ids rows (cells' & _ & ->) _ IH]; constructor; auto.
Qed.

(** ** Claim-level statements and their witnesses *)

(** C10: only the first datapoint of a result counts. Dropping from every
    backend response all datapoints after the first leaves both reductions
    unchanged: the provisioned one reads [Datapoints[0]], the serverless one
    adds [Values[0]] of each result. *)
Theorem only_first_datapoint_counts :
  (forall cw cluster_id metric_name is_peak time_period s,
      get_cloudwatch_serverless_metric (first_datapoints cw) cluster_id metric_name is_peak time_period s
      = get_cloudwatch_serverless_metric cw cluster_id metric_name is_peak time_period s)
  /\ (forall cw cluster_id metric_name is_peak node time_period s,
      get_cloudwatch_metric (first_datapoints cw) cluster_id metric_name is_peak node time_period s
      = get_cloudwatch_metric cw cluster_id metric_name is_peak node time_period s).
Proof.
  split; intros; [apply serverless_first_only|apply provisioned_first_only].
Qed.

Lemma serverless_sum_over_topics_witness :
  fst (get_cloudwatch_serverless_metric demo_cw (VStr "demo-serverless") "MessagesInPerSec" true
         METRIC_COLLECTION_PERIOD_DAYS demo_state) = Ok (VInt 12).
Proof.
  rewrite (serverless_sum_over_topics demo_cw (VStr "demo-serverless") "MessagesInPerSec" true
             METRIC_COLLECTION_PERIOD_DAYS demo_state
             (result_or (list_metrics demo_cw (list_metrics_params (VStr "demo-serverless")
                                                                   "MessagesInPerSec")) [])
             [VStr "a"; VStr "b"] demo_values).
  - reflexivity.
  - reflexivity.
  - vm_compute. reflexivity.
  - intros; reflexivity.
  - intros t [<-|[<-|[]]]; vm_compute; lia.
Defined.

Lemma rows_share_columns_witness :
  exists clusters s1, get_msk_clusters demo_kafka demo_state = (Ok clusters, s1)
  /\ Forall (fun row =>
       length row = length create_dataframe_columns /\ row_layout row
       /\ exists cluster_id details d node_id,
            In (cluster_id, details) clusters /\ describe_cluster "us-east-1" cluster_id details = Ok d
            /\ nth 6 row VNone = VInt node_id
            /\ Forall2 (fun col cell => exists metric (is_peak : bool) s2 s3,
                          col = (metric ++ (if is_peak then " (max)" else " (avg)"))%string
                          /\ metric_reading demo_cw cluster_id (cd_type d) metric is_peak node_id s2 = (Ok cell, s3))
                       (skipn 9 create_dataframe_columns) (skipn 9 row))
       (result_or (fst (get_msk_cluster_rows demo_cw demo_kafka "us-east-1" demo_state)) []).
Proof.
  apply (proj1 rows_share_columns demo_cw demo_kafka "us-east-1" demo_state _
           (snd (get_msk_cluster_rows demo_cw demo_kafka "us-east-1" demo_state))).
  vm_compute. reflexivity.
Defined.

Lemma rows_per_cluster_witness :
  exists clusters blocks,
    fst (get_msk_clusters demo_kafka demo_state) = Ok clusters
    /\ result_or (fst (get_msk_cluster_rows demo_cw demo_kafka "us-east-1" demo_state)) [] = concat blocks
    /\ Forall2 (fun entry block => length block = declared_node_count (snd entry)) clusters blocks.
Proof.
  apply (rows_per_cluster demo_cw demo_kafka "us-east-1" demo_state _
           (snd (get_msk_cluster_rows demo_cw demo_kafka "us-east-1" demo_state))).
  vm_compute. reflexivity.
Defined.

Lemma first_row_carries_cluster_fields_witness :
  exists d row1 rest,
    describe_cluster "us-east-1" (VStr "demo-msk") demo_msk_descriptor = Ok d
    /\ result_or (fst (cluster_rows demo_cw "us-east-1" (VStr "demo-msk", demo_msk_descriptor)
                         demo_state)) [] = row1 :: rest
    /\ firstn (length CLUSTER_INFO) row1 = cd_base_info d
    /\ (exists az auth kafka_version monitoring,
          cd_base_info d = [VStr "us-east-1"; VStr "demo-msk"; az; VStr auth; kafka_version; monitoring])
    /\ Forall (fun row => firstn (length CLUSTER_INFO) row = repeat (VStr EmptyString) (length CLUSTER_INFO))
              rest.
Proof.
  apply (first_row_carries_cluster_fields demo_cw "us-east-1" (VStr "demo-msk") demo_msk_descriptor
           demo_state _
           (snd (cluster_rows demo_cw "us-east-1" (VStr "demo-msk", demo_msk_descriptor) demo_state))).
  - vm_compute. reflexivity.
  - apply Nat.ltb_lt. vm_compute. reflexivity.
Defined.

Lemma window_in (op : string) (z : Z) (log : list call) :
  In (op, z) (map window_length log)
  <-> existsb (fun p => String.eqb (fst p) op && Z.eqb (snd p) z) (map window_length log) = true.
Proof.
  rewrite existsb_exists. split.
  - intros H. exists (op, z). split; [exact H|]. cbn. rewrite String.eqb_refl, Z.eqb_refl. reflexivity.
  - intros ([op' z'] & H & E). cbn in E.
    apply andb_true_iff in E as [E1 E2].
    apply String.eqb_eq in E1; apply Z.eqb_eq in E2; subst; exact H.
Qed.

(** C5 (code defect): in one run of the assembler over a serverless cluster
    and a provisioned one, the serverless [get_metric_data] requests cover a
    window of one day (86400 s), not seven, while the provisioned
    [get_metric_statistics] requests cover seven days: the assembler passes
    [node_id] (1) as the serverless reduction's [time_period]. *)
Theorem serverless_window_is_one_day :
  let log := st_log (snd (get_msk_cluster_rows demo_cw demo_kafka "us-east-1" demo_state)) in
  In ("get_metric_data", 86400%Z) (map window_length log)
  /\ ~ In ("get_metric_data", METRIC_COLLECTION_PERIOD_DAYS * 86400)%Z (map window_length log)
  /\ In ("get_metric_statistics", METRIC_COLLECTION_PERIOD_DAYS * 86400)%Z (map window_length log).
Proof.
  intros log. rewrite !window_in. split; [|split].
  - vm_compute. reflexivity.
  - intros H. vm_compute in H. discriminate H.
  - vm_compute. reflexivity.
Qed.

















Lemma mapM_raise {A B} (f : A -> M B) (x : A) (l : list A) :
  In x l -> (forall s, exists e s', f x s = (Raise e, s')) ->
  forall s, exists e s', mapM f l s = (Raise e, s').
Proof.
  intros Hin Hf. induction l as [|y l IH]; [destruct Hin|]. intros s. cbn [mapM]. unfold bind at 1.
  destruct Hin as [<-|Hin].
  - destruct (Hf s) as (e & s' & ->). eauto.
  - destruct (f y s) as [[b|e] s1]; [|eauto].
    unfold bind. destruct (IH Hin s1) as (e & s' & ->). eauto.
Qed.





Lemma scan_pages_raise params cluster_id pages :
  forall topics s e,
    fold_result (scan_page cluster_id) topics pages = Raise e ->
    fst (scan_pages params cluster_id topics pages s) = Raise e.
Proof.
  induction pages as [|page pages IH]; intros topics s e H; cbn in H |- *; [discriminate H|].
  unfold bind, backend, liftR.
  destruct (scan_page cluster_id topics page) as [t1|e1]; cbn [rbind] in H.
  - apply IH, H.
  - exact H.
Qed.

Lemma run_batches_partial cw values st en (bs : list (list pyval)) :
  (forall b, In b bs ->
     get_metric_data cw (get_metric_data_kwargs b st en)
     = Ok (VDict [("MetricDataResults", VList (map (topic_result values) b))])
     \/ exists e, get_metric_data cw (get_metric_data_kwargs b st en) = Raise e) ->
  forall a s,
    fst (run_batches cw st en (VInt a) bs s)
    = Ok (VInt (a + sum_Z (map (fun q => hd 0%Z (values (query_topic q)))
                              (concat (filter (batch_answered cw st en) bs))))).
Proof.
  induction bs as [|b bs IH]; intros Hb a s.
  - cbn. now rewrite Z.add_0_r.
  - cbn [run_batches filter]. unfold batch_answered at 1.
    unfold bind at 1, run_batch, try_M, bind, backend, ret.
    destruct (Hb b (or_introl eq_refl)) as [Hok|[e He]].
    + rewrite Hok. unfold add_response. cbn [fst py_get assoc String.eqb Ascii.eqb Bool.eqb].
      cbn. rewrite add_results_topic. cbn [fst concat].
      rewrite IH by (intros; apply Hb; right; assumption).
      rewrite map_app. unfold sum_Z. rewrite fold_right_app.
      f_equal. f_equal.
      set (l1 := map _ b). set (l2 := map _ (concat _)).
      assert (forall x l, fold_right Z.add x l = (x + fold_right Z.add 0 l)%Z) as Hf.
      { intros x l; induction l; cbn; lia. }
      rewrite (Hf (fold_right Z.add 0%Z l2)). lia.
    + rewrite He. apply IH. intros; apply Hb; right; assumption.
Qed.

Lemma provisioned_raises cw cluster_id metric_name (is_peak : bool) node time_period s e :
  get_metric_statistics cw
    (get_metric_statistics_kwargs metric_name (metric_dimensions cluster_id metric_name node)
       (st_now s - time_period * 86400) (st_now s) (time_period * 24 * 60 * 60)
       (if is_peak then ["Maximum"] else ["Average"])) = Raise e ->
  exists s', get_cloudwatch_metric cw cluster_id metric_name is_peak node time_period s = (Raise e, s').
Proof.
  intros H. unfold get_cloudwatch_metric, now, bind, backend, liftR, ret.
  cbn [fst snd st_now]. rewrite H. eexists. reflexivity.
Qed.

Lemma provisioned_cluster_raises cw region cluster_id details d n e :
  describe_cluster region cluster_id details = Ok d -> cd_type d = "PROVISIONED" ->
  int_value (cd_number_of_broker_nodes d) = Some n -> (0 < n)%Z ->
  (forall kw, get_metric_statistics cw kw = Raise e) ->
  forall s, exists s', cluster_rows cw region (cluster_id, details) s = (Raise e, s').
Proof.
  intros Hd Ht Hn Hpos Hf s.
  assert (Hids : exists rest, node_ids d = Ok (1%Z :: rest)).
  { unfold node_ids. rewrite Ht. cbn [String.eqb Ascii.eqb Bool.eqb].
    unfold py_add. rewrite Hn. cbn [int_value rbind].
    unfold py_range. replace (Z.to_nat (n + 1 - 1)) with (S (Z.to_nat (n + 1 - 2))) by lia.
    cbn [seq map]. eexists. reflexivity. }
  destruct Hids as [rest Hids].
  unfold cluster_rows, bind at 1, liftR at 1. rewrite Hd.
  unfold bind at 1, liftR at 1. rewrite Hids.
  cbn [node_rows]. unfold bind at 1, metric_cells. rewrite Ht. cbn [String.eqb Ascii.eqb Bool.eqb].
  unfold bind at 1. cbn [mapM AVERAGE_METRICS]. unfold bind at 1.
  destruct (provisioned_raises cw cluster_id "BytesInPerSec" false (Some 1%Z) METRIC_COLLECTION_PERIOD_DAYS s e
              (Hf _)) as [s' Hs'].
  rewrite Hs'. eexists. reflexivity.
Qed.

(** C3 (code defect): the serverless reduction never raises, as its
    sibling contract requires: a failed series listing or discovery gives
    0, and a failed [get_metric_data] batch is skipped, the result being
    the sum over the batches that were answered. The provisioned reduction
    has no [try]: an error of [get_metric_statistics] reaches its caller,
    and a provisioned cluster with a node then makes the whole assembler
    run raise, so no row is produced for any cluster. *)
Theorem reduction_exceptions :
  (forall cw cluster_id metric_name is_peak time_period s,
      exists v, fst (get_cloudwatch_serverless_metric cw cluster_id metric_name is_peak time_period s) = Ok v)
  /\ (forall cw cluster_id metric_name is_peak time_period s e,
      list_metrics cw (list_metrics_params cluster_id metric_name) = Raise e ->
      fst (get_cloudwatch_serverless_metric cw cluster_id metric_name is_peak time_period s) = Ok (VInt 0))
  /\ (forall cw cluster_id metric_name is_peak time_period s pages e,
      list_metrics cw (list_metrics_params cluster_id metric_name) = Ok pages ->
      discover_topics cluster_id pages = Raise e ->
      fst (get_cloudwatch_serverless_metric cw cluster_id metric_name is_peak time_period s) = Ok (VInt 0))
  /\ (forall cw cluster_id metric_name (is_peak : bool) time_period s pages topics values,
      list_metrics cw (list_metrics_params cluster_id metric_name) = Ok pages ->
      discover_topics cluster_id pages = Ok topics ->
      let end_time := st_now s in
      let start_time := (end_time - time_period * 86400)%Z in
      let queries := map (fun it => metric_data_query cluster_id metric_name (time_period * 24 * 60 * 60)
                                      (if is_peak then "Maximum" else "Average") (fst it) (snd it))
                         (enumerate topics) in
      (forall b, In b (batches queries) ->
         get_metric_data cw (get_metric_data_kwargs b start_time end_time)
         = Ok (VDict [("MetricDataResults", VList (map (topic_result values) b))])
         \/ exists e, get_metric_data cw (get_metric_data_kwargs b start_time end_time) = Raise e) ->
      fst (get_cloudwatch_serverless_metric cw cluster_id metric_name is_peak time_period s)
      = Ok (VInt (sum_Z (map (fun q => hd 0%Z (values (query_topic q)))
                             (concat (filter (batch_answered cw start_time end_time) (batches queries)))))))
  /\ (forall cw cluster_id metric_name (is_peak : bool) node time_period s e,
      get_metric_statistics cw
        (get_metric_statistics_kwargs metric_name (metric_dimensions cluster_id metric_name node)
           (st_now s - time_period * 86400) (st_now s) (time_period * 24 * 60 * 60)
           (if is_peak then ["Maximum"] else ["Average"])) = Raise e ->
      fst (get_cloudwatch_metric cw cluster_id metric_name is_peak node time_period s) = Raise e)
  /\ (forall cw kafka region s clusters s1 cluster_id details d n e,
      get_msk_clusters kafka s = (Ok clusters, s1) -> In (cluster_id, details) clusters ->
      describe_cluster region cluster_id details = Ok d -> cd_type d = "PROVISIONED" ->
      int_value (cd_number_of_broker_nodes d) = Some n -> (0 < n)%Z ->
      (forall kw, get_metric_statistics cw kw = Raise e) ->
      exists e', fst (get_msk_cluster_rows cw kafka region s) = Raise e')
  /\ fst (get_msk_cluster_rows (failing_client (BackendError "ThrottlingException")) demo_kafka "us-east-1"
           demo_state) = Raise (BackendError "ThrottlingException").
Proof.
  split; [|split; [|split; [|split; [|split; [|split]]]]].
  - intros cw cluster_id metric_name is_peak time_period s.
    unfold get_cloudwatch_serverless_metric, now, try_M, bind, backend, liftR, ret.
    destruct (list_metrics cw _); [|eexists; reflexivity].
    destruct (scan_pages _ cluster_id [] a _) as [[[|t ts]|] s1]; try (eexists; reflexivity).
    destruct (map _ (enumerate (t :: ts))); [eexists; reflexivity|].
    apply run_batches_ok.
  - intros cw cluster_id metric_name is_peak time_period s e H.
    unfold get_cloudwatch_serverless_metric, now, try_M, bind, backend, liftR, ret.
    rewrite H. reflexivity.
  - intros cw cluster_id metric_name is_peak time_period s pages e Hl Hd.
    unfold get_cloudwatch_serverless_metric, now, try_M, bind at 1 2.
    cbn [fst snd st_now]. rewrite Hl.
    unfold bind at 1.
    pose proof (scan_pages_raise (list_metrics_params cluster_id metric_name) cluster_id pages []
                  s e Hd) as Hr.
    destruct (scan_pages _ cluster_id [] pages s) as [r s1]. cbn [fst] in Hr. subst r.
    reflexivity.
  - intros cw cluster_id metric_name is_peak time_period s pages topics values Hl Hd.
    cbv zeta. intros Hb.
    unfold get_cloudwatch_serverless_metric, now, try_M, bind at 1 2.
    cbn [fst snd st_now]. rewrite Hl. unfold bind at 1.
    rewrite (scan_pages_ok _ _ _ _ _ _ Hd). unfold ret, bind.
    destruct topics as [|t ts]; [reflexivity|].
    remember (map _ (enumerate (t :: ts))) as qs eqn:Hq.
    destruct qs as [|q qs']; [discriminate Hq|].
    change (VInt (sum_Z ?l)) with (VInt (0 + sum_Z l)).
    apply run_batches_partial. exact Hb.
  - intros cw cluster_id metric_name is_peak node time_period s e H.
    destruct (provisioned_raises _ _ _ _ _ _ _ _ H) as [s' ->]. reflexivity.
  - intros cw kafka region s clusters s1 cluster_id details d n e Hc Hin Hd Ht Hn Hpos Hf.
    unfold get_msk_cluster_rows, bind at 1. rewrite Hc. unfold bind.
    assert (Hr : forall s0, exists e0 s', cluster_rows cw region (cluster_id, details) s0 = (Raise e0, s')).
    { intros s0. destruct (provisioned_cluster_raises cw region cluster_id details d n e Hd Ht Hn Hpos Hf s0)
        as [s' Hs']. eauto. }
    destruct (mapM_raise (cluster_rows cw region) (cluster_id, details) clusters Hin Hr s1)
      as (e' & s' & ->).
    exists e'. reflexivity.
  - vm_compute. reflexivity.
Qed.

(** * Further properties of the code *)

Lemma pyval_eqb_refl v : pyval_eqb v v = true.
Proof.
  induction v using pyval_ind'; cbn.
  - reflexivity.
  - apply Bool.eqb_reflx.
  - apply Z.eqb_refl.
  - apply String.eqb_refl.
  - induction H as [|x l Hx _ IH]; [reflexivity|]. cbn. rewrite Hx. exact IH.
  - induction H as [|x l Hx _ IH]; [reflexivity|]. cbn. rewrite Hx. exact IH.
  - induction H as [|[k x] l Hx _ IH]; [reflexivity|]. cbn in Hx |- *. rewrite String.eqb_refl, Hx. exact IH.
Qed.

Lemma fold_result_inv {A B} (P : B -> Prop) (f : B -> A -> result B) acc l r :
  fold_result f acc l = Ok r -> P acc ->
  (forall a x a', In x l -> P a -> f a x = Ok a' -> P a') -> P r.
Proof.
  revert acc; induction l as [|x l IH]; intros acc H Hacc Hf; cbn in H.
  - injection H as <-. exact Hacc.
  - destruct (f acc x) as [a'|e] eqn:E; cbn in H; [|discriminate H].
    eapply IH; [exact H| |].
    + eapply Hf; [left; reflexivity|exact Hacc|exact E].
    + intros; eapply Hf; [right|..]; eauto.
Qed.

(** Along a successful fold, each element is processed from some
    accumulator, and a preorder [Q] preserved by each step relates that
    step's result to the final one. *)
Lemma fold_result_step {A B} (Q : B -> B -> Prop) (f : B -> A -> result B) acc l r x :
  (forall a, Q a a) -> (forall a b c, Q a b -> Q b c -> Q a c) ->
  (forall a y a', f a y = Ok a' -> Q a a') ->
  fold_result f acc l = Ok r -> In x l -> exists a a', f a x = Ok a' /\ Q a' r.
Proof.
  intros Hrefl Htrans Hstep. revert acc.
  induction l as [|y l IH]; intros acc H Hin; [destruct Hin|]. cbn in H.
  destruct (f acc y) as [a'|e] eqn:E; cbn in H; [|discriminate H].
  destruct Hin as [<-|Hin].
  - exists acc, a'. split; [exact E|].
    clear - H Hstep Hrefl Htrans. revert a' H. induction l as [|z l IH]; intros a' H; cbn in H.
    + injection H as <-. apply Hrefl.
    + destruct (f a' z) as [a''|e] eqn:E; cbn in H; [|discriminate H].
      eapply Htrans; [eapply Hstep; exact E|]. eapply IH; exact H.
  - eapply IH; eauto.
Qed.

Lemma dict_replace_keys d k v : map fst (dict_replace d k v) = map fst d.
Proof.
  induction d as [|[k' v'] d IH]; cbn; [reflexivity|].
  destruct (pyval_eqb k k'); cbn; [reflexivity|]. rewrite IH; reflexivity.
Qed.

Lemma dict_replace_in d k v k' v' :
  In (k', v') (dict_replace d k v) -> In (k', v') d \/ (v' = v /\ pyval_eqb k k' = true).
Proof.
  induction d as [|[k0 v0] d IH]; cbn; [tauto|].
  destruct (pyval_eqb k k0) eqn:E; cbn.
  - intros [H|H]; [injection H as <- <-; right; auto|left; right; exact H].
  - intros [H|H]; [left; left; exact H|]. destruct (IH H) as [H'|H']; [left; right; exact H'|right; exact H'].
Qed.

Lemma ForallOrdPairs_snoc {A} (R : A -> A -> Prop) l x :
  ForallOrdPairs R l -> Forall (fun a => R a x) l -> ForallOrdPairs R (l ++ [x]).
Proof.
  induction 1 as [|a l Ha Hl IH]; intros Hx; cbn.
  - constructor; constructor.
  - inversion Hx as [|? ? Hax Hx']; subst. constructor.
    + apply Forall_app; split; [exact Ha|constructor; [exact Hax|constructor]].
    + apply IH, Hx'.
Qed.

Lemma existsb_false_forall {A} (f : A -> bool) l :
  existsb f l = false -> Forall (fun a => f a = false) l.
Proof.
  induction l as [|a l IH]; cbn; [constructor|].
  intros H; apply orb_false_iff in H as [H1 H2]; constructor; auto.
Qed.

Lemma is_str_eq v s : is_str v s = true -> v = VStr s.
Proof. destruct v; cbn; try discriminate. intros H; apply String.eqb_eq in H; subst; reflexivity. Qed.

Lemma add_cluster_inv d c d' :
  listing_inv d -> add_cluster d c = Ok d' -> listing_inv d'.
Proof.
  unfold add_cluster. intros [Hok Hpairs] H.
  destruct (py_index c "State") as [st|e] eqn:Est; cbn [rbind] in H; [|discriminate H].
  destruct (is_str st "ACTIVE") eqn:Ea; [|injection H as <-; split; assumption].
  apply is_str_eq in Ea; subst st.
  destruct (py_index c "ClusterName") as [name|e] eqn:En; cbn [rbind] in H; [|discriminate H].
  unfold dict_setitem in H.
  destruct (hashable name); [|discriminate H].
  destruct (existsb (fun kv => pyval_eqb name (fst kv)) d) eqn:Ex; injection H as <-.
  - split; [|rewrite dict_replace_keys; exact Hpairs].
    apply Forall_forall. intros [k v] Hin.
    destruct (dict_replace_in _ _ _ _ _ Hin) as [Hin'|[-> Hk]].
    + exact (proj1 (Forall_forall _ _) Hok _ Hin').
    + split; [exact Est|]. exists name; auto.
  - split.
    + apply Forall_app; split; [exact Hok|]. constructor; [|constructor].
      split; [exact Est|]. exists name. split; [exact En|]. cbn.
      apply pyval_eqb_refl.
    + rewrite map_app. apply ForallOrdPairs_snoc; [exact Hpairs|].
      apply existsb_false_forall in Ex. rewrite Forall_map. exact Ex.
Qed.

Lemma add_page_inv d page d' :
  listing_inv d -> add_page d page = Ok d' -> listing_inv d'.
Proof.
  unfold add_page. intros Hd H.
  destruct (py_index page "ClusterInfoList") as [l|e]; cbn [rbind] in H; [|discriminate H].
  destruct (py_iter l) as [cs|e]; cbn [rbind] in H; [|discriminate H].
  eapply (fold_result_inv listing_inv); [exact H|exact Hd|].
  intros; eapply add_cluster_inv; eauto.
Qed.

Lemma scan_cluster_pages_result pages :
  forall clusters s r s', scan_cluster_pages clusters pages s = (r, s') -> r = fold_result add_page clusters pages.
Proof.
  induction pages as [|page pages IH]; intros clusters s r s' H; cbn in H |- *.
  - injection H as <- _. reflexivity.
  - unfold bind, backend, liftR in H.
    destruct (add_page clusters page) as [c1|e]; cbn [rbind].
    + exact (IH _ _ _ _ H).
    + injection H as <- _. reflexivity.
Qed.

Lemma get_msk_clusters_result kafka s r s' :
  get_msk_clusters kafka s = (r, s') -> r = rbind (list_clusters_v2 kafka) (fold_result add_page []).
Proof.
  unfold get_msk_clusters. destruct (list_clusters_v2 kafka) as [pages|e]; cbn [rbind].
  - apply scan_cluster_pages_result.
  - unfold backend. intros H. injection H as <- _. reflexivity.
Qed.

Lemma get_msk_clusters_inv kafka s clusters s' :
  get_msk_clusters kafka s = (Ok clusters, s') -> listing_inv clusters.
Proof.
  intros H. apply get_msk_clusters_result in H.
  destruct (list_clusters_v2 kafka) as [pages|e]; cbn [rbind] in H; [|discriminate].
  symmetry in H.
  eapply (fold_result_inv listing_inv); [exact H| |].
  - split; constructor.
  - intros; eapply add_page_inv; eauto.
Qed.

Lemma keys_grow_refl a : keys_grow a a.
Proof. exists []. rewrite app_nil_r. reflexivity. Qed.

Lemma keys_grow_trans a b c : keys_grow a b -> keys_grow b c -> keys_grow a c.
Proof. intros [t1 H1] [t2 H2]. exists (t1 ++ t2). rewrite H2, H1, app_assoc. reflexivity. Qed.

Lemma add_cluster_grow a c a' : add_cluster a c = Ok a' -> keys_grow a a'.
Proof.
  unfold add_cluster. intros H.
  destruct (py_index c "State") as [st|e]; cbn [rbind] in H; [|discriminate H].
  destruct (is_str st "ACTIVE"); [|injection H as <-; apply keys_grow_refl].
  destruct (py_index c "ClusterName") as [name|e]; cbn [rbind] in H; [|discriminate H].
  unfold dict_setitem in H. destruct (hashable name); [|discriminate H].
  destruct (existsb _ a); injection H as <-.
  - exists []. rewrite dict_replace_keys, app_nil_r. reflexivity.
  - exists [name]. rewrite map_app. reflexivity.
Qed.

Lemma add_page_grow a page a' : add_page a page = Ok a' -> keys_grow a a'.
Proof.
  unfold add_page. intros H.
  destruct (py_index page "ClusterInfoList") as [l|e]; cbn [rbind] in H; [|discriminate H].
  destruct (py_iter l) as [cs|e]; cbn [rbind] in H; [|discriminate H].
  revert a H. induction cs as [|c cs IH]; intros a H; cbn in H.
  - injection H as <-. apply keys_grow_refl.
  - destruct (add_cluster a c) as [a1|e] eqn:E; cbn in H; [|discriminate H].
    eapply keys_grow_trans; [eapply add_cluster_grow; exact E|]. apply IH, H.
Qed.

Lemma has_key_grow name a b : has_key name a -> keys_grow a b -> has_key name b.
Proof.
  intros (k & Hk & E) [t Ht]. exists k. rewrite Ht. split; [apply in_or_app; left; exact Hk|exact E].
Qed.

Lemma add_cluster_has_key a c a' name :
  add_cluster a c = Ok a' -> py_index c "State" = Ok (VStr "ACTIVE") ->
  py_index c "ClusterName" = Ok name -> has_key name a'.
Proof.
  unfold add_cluster. intros H Hs Hn. rewrite Hs in H. cbn [rbind is_str] in H.
  rewrite String.eqb_refl, Hn in H. cbn [rbind] in H.
  unfold dict_setitem in H. destruct (hashable name); [|discriminate H].
  destruct (existsb (fun kv => pyval_eqb name (fst kv)) a) eqn:Ex; injection H as <-.
  - apply existsb_exists in Ex as ([k v] & Hin & E).
    exists k. rewrite dict_replace_keys. split; [|exact E].
    apply in_map_iff. exists (k, v); auto.
  - exists name. rewrite map_app. split; [apply in_or_app; right; left; reflexivity|apply pyval_eqb_refl].
Qed.

(** On success, every entry of the dict built by [get_msk_clusters] is a cluster
    whose [State] is [ACTIVE], stored under its own [ClusterName], and no key
    occurs twice. *)
Theorem get_msk_clusters_active_by_name kafka s clusters s' :
  get_msk_clusters kafka s = (Ok clusters, s') ->
  Forall listed_cluster_ok clusters
  /\ ForallOrdPairs (fun a b => pyval_eqb b a = false) (map fst clusters).
Proof. apply get_msk_clusters_inv. Qed.

Lemma get_msk_clusters_active_by_name_witness :
  get_msk_clusters demo_kafka demo_state
    = (Ok (result_or (fst (get_msk_clusters demo_kafka demo_state)) []),
       snd (get_msk_clusters demo_kafka demo_state))
  /\ Forall listed_cluster_ok (result_or (fst (get_msk_clusters demo_kafka demo_state)) [])
  /\ ForallOrdPairs (fun a b => pyval_eqb b a = false)
                    (map fst (result_or (fst (get_msk_clusters demo_kafka demo_state)) [])).
Proof.
  assert (H : get_msk_clusters demo_kafka demo_state
    = (Ok (result_or (fst (get_msk_clusters demo_kafka demo_state)) []),
       snd (get_msk_clusters demo_kafka demo_state))) by (vm_compute; reflexivity).
  split; [exact H|].
  exact (get_msk_clusters_active_by_name _ _ _ _ H).
Defined.

(** Every cluster listed with [State] [ACTIVE] on any page of the listing
    has its [ClusterName] among the keys of the returned dict. *)
Theorem get_msk_clusters_keeps_active kafka s clusters s' pages page l cs c name :
  get_msk_clusters kafka s = (Ok clusters, s') ->
  list_clusters_v2 kafka = Ok pages -> In page pages ->
  py_index page "ClusterInfoList" = Ok l -> py_iter l = Ok cs -> In c cs ->
  py_index c "State" = Ok (VStr "ACTIVE") -> py_index c "ClusterName" = Ok name ->
  has_key name clusters.
Proof.
  intros H Hp Hin Hl Hcs Hc Hs Hn.
  apply get_msk_clusters_result in H. rewrite Hp in H. cbn [rbind] in H. symmetry in H.
  destruct (fold_result_step keys_grow add_page [] pages clusters page keys_grow_refl keys_grow_trans
              add_page_grow H Hin) as (a & a' & Ha & Hg).
  unfold add_page in Ha. rewrite Hl in Ha. cbn [rbind] in Ha. rewrite Hcs in Ha. cbn [rbind] in Ha.
  destruct (fold_result_step keys_grow add_cluster a cs a' c keys_grow_refl keys_grow_trans
              add_cluster_grow Ha Hc) as (b & b' & Hb & Hg').
  eapply has_key_grow; [|exact Hg].
  eapply has_key_grow; [|exact Hg'].
  eapply add_cluster_has_key; eauto.
Qed.

Lemma get_msk_clusters_keeps_active_witness :
  has_key (VStr "demo-msk") (result_or (fst (get_msk_clusters demo_kafka demo_state)) []).
Proof.
  apply (get_msk_clusters_keeps_active demo_kafka demo_state _ (snd (get_msk_clusters demo_kafka demo_state))
           [VDict [("ClusterInfoList", VList [demo_serverless_descriptor; demo_msk_descriptor])]]
           (VDict [("ClusterInfoList", VList [demo_serverless_descriptor; demo_msk_descriptor])])
           (VList [demo_serverless_descriptor; demo_msk_descriptor])
           [demo_serverless_descriptor; demo_msk_descriptor] demo_msk_descriptor).
  - vm_compute. reflexivity.
  - reflexivity.
  - left; reflexivity.
  - reflexivity.
  - reflexivity.
  - right; left; reflexivity.
  - reflexivity.
  - reflexivity.
Defined.

Lemma scan_dimension_flags cluster_id ds flags :
  fold_result (scan_dimension cluster_id) (false, false, VNone) ds = Ok flags ->
  (fst (fst flags) = true ->
     exists d1 v, In d1 ds /\ py_index d1 "Name" = Ok (VStr cluster_dimension_key)
                  /\ py_index d1 "Value" = Ok v /\ pyval_eqb v cluster_id = true)
  /\ (snd (fst flags) = true ->
     exists d2, In d2 ds /\ py_index d2 "Name" = Ok (VStr "Topic") /\ py_index d2 "Value" = Ok (snd flags)).
Proof.
  intros H. eapply (fold_result_inv (fun flags =>
    (fst (fst flags) = true ->
     exists d1 v, In d1 ds /\ py_index d1 "Name" = Ok (VStr cluster_dimension_key)
                  /\ py_index d1 "Value" = Ok v /\ pyval_eqb v cluster_id = true)
    /\ (snd (fst flags) = true ->
     exists d2, In d2 ds /\ py_index d2 "Name" = Ok (VStr "Topic") /\ py_index d2 "Value" = Ok (snd flags))));
    [exact H|cbn; split; discriminate|].
  intros [[icc htd] tv] dim a' Hin [Hc Ht] Hs. cbn [fst snd] in Hc, Ht.
  unfold scan_dimension in Hs.
  destruct (py_index dim "Name") as [name|e] eqn:En; cbn [rbind] in Hs; [|discriminate Hs].
  assert (Hm : forall m, (if is_str name cluster_dimension_key
                          then (v <-? py_index dim "Value" ;; Ok (pyval_eqb v cluster_id)) else Ok false) = Ok m ->
                         m = true -> exists d1 v, In d1 ds /\ py_index d1 "Name" = Ok (VStr cluster_dimension_key)
                                                  /\ py_index d1 "Value" = Ok v /\ pyval_eqb v cluster_id = true).
  { intros m Hm ->. destruct (is_str name cluster_dimension_key) eqn:Ek; [|discriminate Hm].
    apply is_str_eq in Ek; subst name.
    destruct (py_index dim "Value") as [v|e] eqn:Ev; cbn [rbind] in Hm; [|discriminate Hm].
    injection Hm as Hm. exists dim, v; auto. }
  destruct (if is_str name cluster_dimension_key
            then (v <-? py_index dim "Value" ;; Ok (pyval_eqb v cluster_id)) else Ok false) as [m|e] eqn:Em;
    cbn [rbind] in Hs; [|discriminate Hs].
  cbn [rbind] in Hs.
  assert (Hc' : icc || m = true -> exists d1 v, In d1 ds /\ py_index d1 "Name" = Ok (VStr cluster_dimension_key)
                                                /\ py_index d1 "Value" = Ok v /\ pyval_eqb v cluster_id = true).
  { intros Hor. apply orb_true_iff in Hor as [Hor|Hor]; [apply Hc, Hor|eapply Hm; eauto]. }
  destruct (is_str name "Topic") eqn:Et.
  - apply is_str_eq in Et; subst name.
    destruct (py_index dim "Value") as [v|e] eqn:Ev; cbn [rbind] in Hs; [|discriminate Hs].
    injection Hs as <-. cbn [fst snd]. split; [exact Hc'|]. intros _. exists dim; auto.
  - injection Hs as <-. cbn [fst snd]. split; [exact Hc'|exact Ht].
Qed.

Lemma set_add_inv cluster_id pages topics v topics' :
  topics_inv cluster_id pages topics -> truthy v = true -> advertised cluster_id pages v ->
  set_add topics v = Ok topics' -> topics_inv cluster_id pages topics'.
Proof.
  unfold set_add. intros [Hp Hf] Ht Ha H.
  destruct (hashable v) eqn:Hh; [|discriminate H].
  destruct (existsb (pyval_eqb v) topics) eqn:Ex; injection H as <-; [split; assumption|].
  split.
  - apply ForallOrdPairs_snoc; [exact Hp|]. apply existsb_false_forall, Ex.
  - apply Forall_app; split; [exact Hf|]. constructor; [auto|constructor].
Qed.

Lemma discover_topics_inv cluster_id pages topics :
  discover_topics cluster_id pages = Ok topics -> topics_inv cluster_id pages topics.
Proof.
  unfold discover_topics. intros H.
  eapply (fold_result_inv (topics_inv cluster_id pages)); [exact H|split; constructor|].
  intros a page a' Hpage Ha Hs. unfold scan_page in Hs.
  destruct (py_get page "Metrics" (VList [])) as [metrics|e] eqn:Em; cbn [rbind] in Hs; [|discriminate Hs].
  destruct (py_iter metrics) as [ms|e] eqn:Ems; cbn [rbind] in Hs; [|discriminate Hs].
  eapply (fold_result_inv (topics_inv cluster_id pages)); [exact Hs|exact Ha|].
  intros b metric b' Hmetric Hb Hsm. unfold scan_metric in Hsm.
  destruct (py_get metric "Dimensions" (VList [])) as [dims|e] eqn:Ed; cbn [rbind] in Hsm; [|discriminate Hsm].
  destruct (py_iter dims) as [ds|e] eqn:Eds; cbn [rbind] in Hsm; [|discriminate Hsm].
  destruct (fold_result (scan_dimension cluster_id) (false, false, VNone) ds) as [flags|e] eqn:Ef;
    cbn [rbind] in Hsm; [|discriminate Hsm].
  apply scan_dimension_flags in Ef as [Hc Ht].
  destruct flags as [[icc htd] tv]. cbn [fst snd] in Hc, Ht.
  destruct (icc && htd && truthy tv) eqn:Ec; [|injection Hsm as <-; exact Hb].
  apply andb_true_iff in Ec as [Ec Htv]. apply andb_true_iff in Ec as [Ec1 Ec2].
  destruct (Hc Ec1) as (d1 & v & Hd1 & Hn1 & Hv1 & Heq).
  destruct (Ht Ec2) as (d2 & Hd2 & Hn2 & Hv2).
  eapply set_add_inv; [exact Hb|exact Htv| |exact Hsm].
  exists page, metrics, ms, metric, dims, ds, d1, v, d2. repeat split; assumption.
Qed.

(** The topics the serverless discovery collects are pairwise distinct,
    hashable and truthy, and each is the [Topic] of a listed series that
    also carries the cluster's dimension. *)
Theorem discover_topics_distinct_advertised cluster_id pages topics :
  discover_topics cluster_id pages = Ok topics ->
  ForallOrdPairs (fun a b => pyval_eqb b a = false) topics
  /\ Forall (fun t => hashable t = true /\ truthy t = true /\ advertised cluster_id pages t) topics.
Proof. apply discover_topics_inv. Qed.

Lemma discover_topics_distinct_advertised_witness :
  let pages := result_or (list_metrics demo_cw (list_metrics_params (VStr "demo-serverless") "MessagesInPerSec")) [] in
  discover_topics (VStr "demo-serverless") pages = Ok [VStr "a"; VStr "b"]
  /\ ForallOrdPairs (fun a b => pyval_eqb b a = false) [VStr "a"; VStr "b"]
  /\ Forall (fun t => hashable t = true /\ truthy t = true /\ advertised (VStr "demo-serverless") pages t)
            [VStr "a"; VStr "b"].
Proof.
  intros pages. assert (H : discover_topics (VStr "demo-serverless") pages = Ok [VStr "a"; VStr "b"])
    by (vm_compute; reflexivity).
  split; [exact H|]. exact (discover_topics_distinct_advertised _ _ _ H).
Defined.

(** ** Decimal strings *)

Lemma str_app_assoc (a b c : string) : ((a ++ b) ++ c = a ++ (b ++ c))%string.
Proof. induction a as [|x a IH]; cbn; [reflexivity|rewrite IH; reflexivity]. Qed.

Lemma str_app_cancel_l (s t1 t2 : string) : (s ++ t1 = s ++ t2)%string -> t1 = t2.
Proof. induction s as [|x s IH]; cbn; [auto|intros H; injection H; auto]. Qed.

Lemma list_ascii_of_string_app (s t : string) :
  list_ascii_of_string (s ++ t) = list_ascii_of_string s ++ list_ascii_of_string t.
Proof. induction s as [|x s IH]; cbn; [reflexivity|rewrite IH; reflexivity]. Qed.

Lemma digits_app f n acc : digits f n acc = (digits f n EmptyString ++ acc)%string.
Proof.
  revert n acc; induction f as [|f IH]; intros n acc; cbn [digits]; [reflexivity|].
  destruct (n <? 10)%nat; [reflexivity|].
  rewrite (IH (n / 10) (String _ acc)), (IH (n / 10) (String _ EmptyString)), str_app_assoc.
  reflexivity.
Qed.

Lemma decimal_value_snoc s c :
  decimal_value (s ++ String c EmptyString) = decimal_value s * 10 + (Ascii.nat_of_ascii c - 48).
Proof. unfold decimal_value. rewrite list_ascii_of_string_app, fold_left_app. reflexivity. Qed.

Lemma digit_value n : n < 10 -> Ascii.nat_of_ascii (Ascii.ascii_of_nat (48 + n)) - 48 = n.
Proof. intros H. rewrite Ascii.nat_ascii_embedding by lia. lia. Qed.

Lemma decimal_value_digits f n : n < f -> decimal_value (digits f n EmptyString) = n.
Proof.
  revert n; induction f as [|f IH]; intros n Hn; [lia|]. cbn [digits].
  assert (Hm : n mod 10 < 10) by (apply Nat.mod_upper_bound; lia).
  destruct (n <? 10)%nat eqn:E.
  - apply Nat.ltb_lt in E. unfold decimal_value. cbn [list_ascii_of_string fold_left].
    rewrite digit_value by exact Hm.
    rewrite Nat.mod_small by exact E. reflexivity.
  - apply Nat.ltb_ge in E. rewrite digits_app, decimal_value_snoc, digit_value by exact Hm.
    rewrite IH.
    + pose proof (Nat.div_mod_eq n 10). lia.
    + assert (n / 10 < n) by (apply Nat.div_lt; lia). lia.
Qed.

Lemma decimal_value_str_of_nat n : decimal_value (str_of_nat n) = n.
Proof. apply decimal_value_digits. lia. Qed.

Lemma query_id_inj m i j : query_id m i = query_id m j -> i = j.
Proof.
  unfold query_id. intros H.
  apply str_app_cancel_l, str_app_cancel_l, str_app_cancel_l in H.
  rewrite <- (decimal_value_str_of_nat i), <- (decimal_value_str_of_nat j), H. reflexivity.
Qed.

Lemma NoDup_map_inj {A B} (g : A -> B) l :
  (forall x y, g x = g y -> x = y) -> NoDup l -> NoDup (map g l).
Proof.
  intros Hg; induction 1 as [|x l Hx _ IH]; cbn; constructor; [|exact IH].
  intros Hin. apply in_map_iff in Hin as (y & Hy & Hin). apply Hg in Hy. subst; contradiction.
Qed.

Lemma map_fst_enumerate {A} (l : list A) : map fst (enumerate l) = seq 0 (length l).
Proof.
  unfold enumerate. generalize 0. induction l as [|x l IH]; intros k; cbn; [reflexivity|].
  rewrite IH. reflexivity.
Qed.

(** The [Id]s of the queries built for the discovered topics are pairwise
    distinct. *)
Theorem query_ids_distinct cluster_id metric_name period statistic topics :
  NoDup (map (fun q => py_index q "Id")
             (map (fun it => metric_data_query cluster_id metric_name period statistic (fst it) (snd it))
                  (enumerate topics))).
Proof.
  rewrite map_map.
  replace (map _ (enumerate topics))
    with (map (fun i => Ok (VStr (query_id metric_name i)) : result pyval) (map fst (enumerate topics)))
    by (rewrite map_map; reflexivity).
  rewrite map_fst_enumerate. apply NoDup_map_inj; [|apply seq_NoDup].
  intros i j H. apply (query_id_inj metric_name). congruence.
Qed.

(** ** Requests issued by the reductions *)

Lemma run_batches_log cw st en bs :
  forall acc s, snd (run_batches cw st en acc bs s)
    = mkState (st_now s) (st_log s ++ map (fun b => mkCall "get_metric_data" (get_metric_data_kwargs b st en)) bs).
Proof.
  induction bs as [|b bs IH]; intros acc s; cbn [run_batches map].
  - rewrite app_nil_r. destruct s; reflexivity.
  - unfold run_batch, try_M, bind, backend, ret.
    destruct (get_metric_data cw _); rewrite IH; cbn; rewrite <- app_assoc; reflexivity.
Qed.

Lemma length_batches {A} (q : list A) : length (batches q) = (length q + 499) / 500.
Proof.
  unfold batches, py_range_step. rewrite length_map, length_map, length_seq.
  unfold max_queries_per_call. f_equal. lia.
Qed.

Lemma length_enumerate {A} (l : list A) : length (enumerate l) = length l.
Proof. unfold enumerate. rewrite length_combine, length_seq. lia. Qed.

(** When topics are found, the serverless metric issues one [list_metrics]
    request per page of the listing and then one [get_metric_data] request
    per batch of the queries, in order, with the same time window; there are
    ceil(n/500) batches for n topics. *)
Theorem serverless_requests cw cluster_id metric_name (is_peak : bool) time_period s pages topics :
  list_metrics cw (list_metrics_params cluster_id metric_name) = Ok pages ->
  discover_topics cluster_id pages = Ok topics -> topics <> [] ->
  let end_time := st_now s in
  let start_time := (end_time - time_period * 86400)%Z in
  let queries := map (fun it => metric_data_query cluster_id metric_name (time_period * 24 * 60 * 60)
                                  (if is_peak then "Maximum" else "Average") (fst it) (snd it))
                     (enumerate topics) in
  st_log (snd (get_cloudwatch_serverless_metric cw cluster_id metric_name is_peak time_period s))
  = st_log s ++ repeat (mkCall "list_metrics" (list_metrics_params cluster_id metric_name)) (length pages)
             ++ map (fun b => mkCall "get_metric_data" (get_metric_data_kwargs b start_time end_time))
                    (batches queries)
  /\ length (batches queries) = (length topics + 499) / 500.
Proof.
  intros Hl Hd Hne. cbv zeta.
  split; [|rewrite length_batches, length_map, length_enumerate; reflexivity].
  unfold get_cloudwatch_serverless_metric, now, try_M, bind at 1 2.
  cbn [fst snd st_now]. rewrite Hl. unfold bind at 1.
  rewrite (scan_pages_ok _ _ _ _ _ _ Hd). unfold ret, bind.
  destruct topics as [|t ts]; [congruence|].
  remember (map _ (enumerate (t :: ts))) as qs eqn:Eqs.
  destruct qs as [|q qs]; [discriminate Eqs|].
  rewrite run_batches_log. cbn [st_log st_now]. rewrite <- app_assoc. reflexivity.
Qed.

Lemma serverless_requests_witness :
  st_log (snd (get_cloudwatch_serverless_metric demo_cw (VStr "demo-serverless") "MessagesInPerSec" true
                 METRIC_COLLECTION_PERIOD_DAYS demo_state))
  = st_log demo_state
    ++ repeat (mkCall "list_metrics" (list_metrics_params (VStr "demo-serverless") "MessagesInPerSec"))
              (length (result_or (list_metrics demo_cw (list_metrics_params (VStr "demo-serverless")
                                                          "MessagesInPerSec")) []))
    ++ map (fun b => mkCall "get_metric_data"
                      (get_metric_data_kwargs b (st_now demo_state - METRIC_COLLECTION_PERIOD_DAYS * 86400)%Z
                                              (st_now demo_state)))
           (batches (map (fun it => metric_data_query (VStr "demo-serverless") "MessagesInPerSec"
                                      (METRIC_COLLECTION_PERIOD_DAYS * 24 * 60 * 60) "Maximum" (fst it) (snd it))
                         (enumerate [VStr "a"; VStr "b"])))
  /\ length (batches (map (fun it => metric_data_query (VStr "demo-serverless") "MessagesInPerSec"
                                      (METRIC_COLLECTION_PERIOD_DAYS * 24 * 60 * 60) "Maximum" (fst it) (snd it))
                         (enumerate [VStr "a"; VStr "b"]))) = 1.
Proof.
  exact (serverless_requests demo_cw (VStr "demo-serverless") "MessagesInPerSec" true
           METRIC_COLLECTION_PERIOD_DAYS demo_state
           (result_or (list_metrics demo_cw (list_metrics_params (VStr "demo-serverless") "MessagesInPerSec")) [])
           [VStr "a"; VStr "b"] eq_refl ltac:(vm_compute; reflexivity) ltac:(discriminate)).
Defined.

(** A result with neither [Values] nor [Id] stops the summing of its batch
    with a [KeyError]: the results after it are not added, the sum so far is
    kept. *)
Theorem batch_stops_at_result_without_id acc rs1 acc1 kv rs2 :
  add_results acc rs1 = (acc1, None) ->
  assoc "Values" kv = None -> assoc "Id" kv = None ->
  add_results acc (rs1 ++ VDict kv :: rs2) = (acc1, Some KeyError).
Proof.
  intros H Hv Hi. revert acc H. induction rs1 as [|r rs1 IH]; intros acc H; cbn in H |- *.
  - injection H as ->. unfold add_result, py_get, py_index. rewrite Hv. cbn. rewrite Hi. reflexivity.
  - destruct (add_result acc r) as [acc'|e]; [apply IH, H|discriminate H].
Qed.

Lemma batch_stops_at_result_without_id_witness :
  add_results (VInt 0) ([VDict [("Id", VStr "query_x_0"); ("Values", VList [VInt 5])]]
                        ++ VDict [("Label", VStr "x")] :: [VDict [("Id", VStr "query_x_2"); ("Values", VList [VInt 7])]])
  = (VInt 5, Some KeyError).
Proof. apply batch_stops_at_result_without_id; reflexivity. Defined.

(** [get_cloudwatch_metric] returns 0 when the response has no [Datapoints]
    key, and raises [KeyError] when the first datapoint lacks the requested
    statistic. *)
Theorem provisioned_datapoint_edges cw cluster_id metric_name (is_peak : bool) node time_period s kv :
  get_metric_statistics cw
    (get_metric_statistics_kwargs metric_name (metric_dimensions cluster_id metric_name node)
       (st_now s - time_period * 86400) (st_now s) (time_period * 24 * 60 * 60)
       (if is_peak then ["Maximum"] else ["Average"])) = Ok (VDict kv) ->
  (assoc "Datapoints" kv = None ->
     fst (get_cloudwatch_metric cw cluster_id metric_name is_peak node time_period s) = Ok (VInt 0))
  /\ (forall dp rest, assoc "Datapoints" kv = Some (VList (VDict dp :: rest)) ->
        assoc (if is_peak then "Maximum" else "Average") dp = None ->
        fst (get_cloudwatch_metric cw cluster_id metric_name is_peak node time_period s) = Raise KeyError).
Proof.
  intros Hresp. unfold get_cloudwatch_metric, now, bind, backend, liftR, ret.
  cbn [fst snd st_now]. rewrite Hresp. split.
  - intros Hd. cbn [py_get]. rewrite Hd. reflexivity.
  - intros dp rest Hd Hs. cbn [py_get]. rewrite Hd. cbn [truthy negb fst].
    unfold py_index at 1. rewrite Hd. cbn [rbind]. unfold py_nth. cbn.
    unfold py_index. rewrite Hs. reflexivity.
Qed.

Lemma provisioned_datapoint_edges_witness :
  fst (get_cloudwatch_metric
         {| list_metrics := fun _ => Ok []; get_metric_data := fun _ => Ok (VDict []);
            get_metric_statistics := fun _ => Ok (VDict [("Label", VStr "BytesInPerSec")]) |}
         (VStr "demo-msk") "BytesInPerSec" false (Some 1%Z) METRIC_COLLECTION_PERIOD_DAYS demo_state)
  = Ok (VInt 0).
Proof.
  apply (proj1 (provisioned_datapoint_edges
                  {| list_metrics := fun _ => Ok []; get_metric_data := fun _ => Ok (VDict []);
                     get_metric_statistics := fun _ => Ok (VDict [("Label", VStr "BytesInPerSec")]) |}
                  (VStr "demo-msk") "BytesInPerSec" false (Some 1%Z) METRIC_COLLECTION_PERIOD_DAYS demo_state
                  [("Label", VStr "BytesInPerSec")] eq_refl)).
  reflexivity.
Defined.

(** ** Rows of one cluster *)

Lemma node_rows_cells cw cluster_id d ids :
  length (cd_base_info d) = length CLUSTER_INFO ->
  forall w s rows s', node_rows cw cluster_id d w ids s = (Ok rows, s') ->
  Forall2 (fun node_id row => nth 6 row VNone = VInt node_id
                              /\ nth 7 row VNone = cd_instance_type d
                              /\ nth 8 row VNone = cd_volume_size d) ids rows.
Proof.
  intros Hb. induction ids as [|nid ids IH]; intros w s rows s' H; cbn [node_rows] in H.
  - injection H as <- _. constructor.
  - unfold bind in H.
    destruct (metric_cells cw cluster_id (cd_type d) nid s) as [[cells|e] s1]; [|discriminate H].
    destruct (node_rows cw cluster_id d true ids s1) as [[rows0|e] s2] eqn:Er; [|discriminate H].
    unfold ret in H; injection H as <- _.
    constructor; [|exact (IH true s1 rows0 s2 Er)].
    match goal with |- context [nth 6 (?cp ++ _) _] =>
      assert (Hl : length cp = 6) by (destruct w; [reflexivity|exact Hb]);
      rewrite !app_nth2 by (rewrite Hl; lia); rewrite Hl
    end.
    cbn. repeat split; reflexivity.
Qed.

Lemma Forall2_map_l_eq {A B C} (f : B -> C) (g : A -> C) l1 l2 :
  Forall2 (fun x y => f y = g x) l1 l2 -> map f l2 = map g l1.
Proof. induction 1; cbn; congruence. Qed.

Lemma py_range_1 b : py_range 1 b = map (fun k => Z.of_nat k) (seq 1 (Z.to_nat (b - 1))).
Proof.
  unfold py_range. rewrite <- seq_shift, map_map. apply map_ext. intros k. lia.
Qed.

(** The rows of one cluster carry node ids 1, 2, ..., k in column 6, and
    every row carries the cluster's instance type and volume size in columns
    7 and 8. *)
Theorem cluster_rows_node_columns cw region cluster_id details s rows s' :
  cluster_rows cw region (cluster_id, details) s = (Ok rows, s') ->
  exists d, describe_cluster region cluster_id details = Ok d
    /\ map (fun row => nth 6 row VNone) rows = map (fun k => VInt (Z.of_nat k)) (seq 1 (length rows))
    /\ Forall (fun row => nth 7 row VNone = cd_instance_type d /\ nth 8 row VNone = cd_volume_size d) rows.
Proof.
  intros H. apply cluster_rows_inv in H as (d & ids & Hd & Hi & Hr).
  destruct (describe_cluster_shape _ _ _ _ Hd) as [(az & auth & kv & em & Hb) _].
  assert (Hc : Forall2 _ ids rows) by (eapply node_rows_cells; [rewrite Hb; reflexivity|exact Hr]).
  exists d. split; [exact Hd|]. split.
  - rewrite (Forall2_map_l_eq (fun row => nth 6 row VNone) VInt ids rows)
      by (eapply Forall2_impl; [|exact Hc]; intros ? ? [? _]; assumption).
    rewrite (Forall2_length' _ _ _ Hc).
    unfold node_ids in Hi. destruct (py_add _ (VInt 1)) as [stop|e]; cbn [rbind] in Hi; [|discriminate Hi].
    destruct (int_value stop) as [b|]; [|discriminate Hi]. injection Hi as <-.
    rewrite py_range_1, map_map. unfold py_range. rewrite length_map, length_seq.
    f_equal; f_equal; lia.
  - apply Forall_forall. intros row Hrow.
    destruct (Forall2_in_r _ _ _ _ Hc Hrow) as (nid & _ & _ & H7 & H8). auto.
Qed.

Lemma cluster_rows_node_columns_witness :
  exists d, describe_cluster "us-east-1" (VStr "demo-msk") demo_msk_descriptor = Ok d
    /\ map (fun row => nth 6 row VNone)
           (result_or (fst (cluster_rows demo_cw "us-east-1" (VStr "demo-msk", demo_msk_descriptor) demo_state)) [])
       = map (fun k => VInt (Z.of_nat k))
             (seq 1 (length (result_or (fst (cluster_rows demo_cw "us-east-1"
                                                 (VStr "demo-msk", demo_msk_descriptor) demo_state)) [])))
    /\ Forall (fun row => nth 7 row VNone = cd_instance_type d /\ nth 8 row VNone = cd_volume_size d)
              (result_or (fst (cluster_rows demo_cw "us-east-1" (VStr "demo-msk", demo_msk_descriptor) demo_state)) []).
Proof.
  apply (cluster_rows_node_columns demo_cw "us-east-1" (VStr "demo-msk") demo_msk_descriptor demo_state _
           (snd (cluster_rows demo_cw "us-east-1" (VStr "demo-msk", demo_msk_descriptor) demo_state))).
  vm_compute. reflexivity.
Defined.

(** ** Requests per cluster *)

Lemma count_op_app op a b : count_op op (a ++ b) = count_op op a + count_op op b.
Proof. unfold count_op. rewrite filter_app, length_app. reflexivity. Qed.

Lemma appends_trans Q op n1 n2 s1 s2 s3 :
  appends Q op n1 s1 s2 -> appends Q op n2 s2 s3 -> appends Q op (n1 + n2) s1 s3.
Proof.
  intros (c1 & -> & Q1 & N1) (c2 & -> & Q2 & N2). exists (c1 ++ c2).
  cbn. rewrite app_assoc. split; [reflexivity|]. split; [apply Forall_app; auto|].
  rewrite count_op_app. lia.
Qed.

Lemma appends_refl Q op s : appends Q op 0 s s.
Proof. exists []. rewrite app_nil_r. destruct s; auto. Qed.

Lemma mapM_appends {A B} Q op n (f : A -> M B) (l : list A) :
  (forall x s r s', In x l -> f x s = (r, s') -> appends Q op n s s') ->
  forall s ys s', mapM f l s = (Ok ys, s') -> appends Q op (n * length l) s s'.
Proof.
  intros Hf. induction l as [|x l IH]; intros s ys s' H; cbn in H.
  - injection H as _ <-. rewrite Nat.mul_0_r. apply appends_refl.
  - unfold bind in H.
    destruct (f x s) as [[y|e] s1] eqn:E1; [|discriminate H].
    destruct (mapM f l s1) as [[ys0|e] s2] eqn:E2; [|discriminate H].
    unfold ret in H; injection H as _ <-.
    replace (n * length (x :: l)) with (n + n * length l) by (cbn; lia).
    apply (appends_trans Q op n (n * length l) s s1 s2).
    + eapply Hf; [left; reflexivity|exact E1].
    + eapply IH; [intros; eapply Hf; [right|]; eauto|exact E2].
Qed.

Lemma get_cloudwatch_metric_appends cw cluster_id metric_name is_peak node time_period s r s' :
  get_cloudwatch_metric cw cluster_id metric_name is_peak node time_period s = (r, s') ->
  appends (fun c => call_op c = "get_metric_statistics") "get_metric_statistics" 1 s s'.
Proof.
  unfold get_cloudwatch_metric, now, bind, backend, liftR, ret. cbn [fst snd].
  match goal with |- context [mkCall _ ?kw] => set (kwargs := kw) end.
  intros H. eexists [mkCall "get_metric_statistics" kwargs]. split; [|split; [repeat constructor|reflexivity]].
  destruct (get_metric_statistics cw _) as [response|e]; [|injection H as _ <-; reflexivity].
  destruct (py_get response "Datapoints" VNone); [|injection H as _ <-; reflexivity].
  destruct (negb _); injection H as _ <-; reflexivity.
Qed.

Lemma count_get_metric_data (k : list pyval -> pyval) bs :
  count_op "list_metrics" (map (fun b => mkCall "get_metric_data" (k b)) bs) = 0.
Proof. unfold count_op. induction bs as [|b bs IH]; [reflexivity|]. cbn [map filter call_op]. exact IH. Qed.

Lemma appends_no_statistics calls s :
  Forall (fun c => call_op c = "list_metrics" \/ call_op c = "get_metric_data") calls ->
  appends (fun c => call_op c = "list_metrics" \/ call_op c = "get_metric_data") "get_metric_statistics" 0
          s (mkState (st_now s) (st_log s ++ calls)).
Proof.
  intros Hq. exists calls. split; [reflexivity|]. split; [exact Hq|].
  unfold count_op. induction Hq as [|c calls [Hc|Hc] _ IH]; [reflexivity| |];
    cbn [filter]; rewrite Hc; exact IH.
Qed.

Lemma serverless_appends cw cluster_id metric_name is_peak time_period s r s' :
  get_cloudwatch_serverless_metric cw cluster_id metric_name is_peak time_period s = (r, s') ->
  appends (fun c => call_op c = "list_metrics" \/ call_op c = "get_metric_data") "get_metric_statistics" 0 s s'.
Proof.
  unfold get_cloudwatch_serverless_metric, now, try_M, bind at 1 2. cbn [fst snd].
  intros H.
  assert (Hlm : forall k, Forall (fun c => call_op c = "list_metrics" \/ call_op c = "get_metric_data")
                  (repeat (mkCall "list_metrics" (list_metrics_params cluster_id metric_name)) k)).
  { intros k. apply Forall_forall. intros c Hc. apply repeat_spec in Hc. subst c. left. reflexivity. }
  destruct (list_metrics cw _) as [pages|e].
  2:{ unfold backend in H. cbn in H. injection H as _ <-.
      exact (appends_no_statistics [mkCall "list_metrics" (list_metrics_params cluster_id metric_name)] s
               (Hlm 1)). }
  unfold bind at 1 in H.
  destruct (scan_pages _ cluster_id [] pages _) as [r1 s1] eqn:Es.
  destruct (scan_pages_log _ _ _ _ _ _ _ Es) as [k Hk]. cbn [st_now] in Hk.
  destruct r1 as [[|t ts]|e]; unfold ret, bind in H;
    try (injection H as _ <-; subst s1; exact (appends_no_statistics _ s (Hlm k))).
  remember (map _ (enumerate (t :: ts))) as qs eqn:Eqs.
  destruct qs as [|q qs]; [injection H as _ <-; subst s1; exact (appends_no_statistics _ s (Hlm k))|].
  match type of H with run_batches ?cw ?st ?en ?acc ?bs ?s0 = _ =>
    pose proof (run_batches_log cw st en bs acc s0) as Hl end.
  rewrite H in Hl. cbn [snd] in Hl. rewrite Hl, Hk. cbn [st_now st_log]. rewrite <- app_assoc.
  apply appends_no_statistics, Forall_app. split; [apply Hlm|].
  apply Forall_map, Forall_forall. intros; right; reflexivity.
Qed.

Lemma metric_cells_appends cw cluster_id cluster_type node_id s cells s' :
  metric_cells cw cluster_id cluster_type node_id s = (Ok cells, s') ->
  (String.eqb cluster_type "PROVISIONED" = true ->
     appends (fun c => call_op c = "get_metric_statistics") "get_metric_statistics"
             (length AVERAGE_METRICS + length PEAK_METRICS) s s')
  /\ (String.eqb cluster_type "PROVISIONED" = false ->
     appends (fun c => call_op c = "list_metrics" \/ call_op c = "get_metric_data") "get_metric_statistics"
             0 s s').
Proof.
  unfold metric_cells. intros H.
  destruct (String.eqb cluster_type "PROVISIONED"); split; intros Hc; try discriminate Hc;
  unfold bind in H;
  match type of H with
  | match mapM ?f ?l ?s0 with _ => _ end = _ =>
      destruct (mapM f l s0) as [[avg|e] s1] eqn:E1; [|discriminate H]
  end;
  match type of H with
  | match mapM ?f ?l ?s0 with _ => _ end = _ =>
      destruct (mapM f l s0) as [[peak|e] s2] eqn:E2; [|discriminate H]
  end;
  unfold ret in H; injection H as _ <-.
  - replace (length AVERAGE_METRICS + length PEAK_METRICS)
      with (1 * length AVERAGE_METRICS + 1 * length PEAK_METRICS) by lia.
    eapply appends_trans; [eapply mapM_appends; [|exact E1]|eapply mapM_appends; [|exact E2]];
      intros x s0 r s0' _ Hx; exact (get_cloudwatch_metric_appends _ _ _ _ _ _ _ _ _ Hx).
  - replace 0 with (0 * length AVERAGE_METRICS + 0 * length PEAK_METRICS) by reflexivity.
    eapply appends_trans; [eapply mapM_appends; [|exact E1]|eapply mapM_appends; [|exact E2]];
      intros x s0 r s0' _ Hx; exact (serverless_appends _ _ _ _ _ _ _ _ Hx).
Qed.

Lemma node_rows_appends cw cluster_id d Q op n ids :
  (forall nid s cells s', metric_cells cw cluster_id (cd_type d) nid s = (Ok cells, s') -> appends Q op n s s') ->
  forall w s rows s', node_rows cw cluster_id d w ids s = (Ok rows, s') ->
  appends Q op (n * length ids) s s' /\ length rows = length ids.
Proof.
  intros Hm. induction ids as [|nid ids IH]; intros w s rows s' H; cbn [node_rows] in H.
  - injection H as <- <-. split; [|reflexivity].
    replace (n * length (@nil Z)) with 0 by (cbn; lia). apply appends_refl.
  - unfold bind in H.
    destruct (metric_cells cw cluster_id (cd_type d) nid s) as [[cells|e] s1] eqn:Ec; [|discriminate H].
    destruct (node_rows cw cluster_id d true ids s1) as [[rows0|e] s2] eqn:Er; [|discriminate H].
    unfold ret in H; injection H as <- <-.
    destruct (IH true s1 rows0 s2 Er) as [Ha Hl].
    split; [|cbn; rewrite Hl; reflexivity].
    replace (n * length (nid :: ids)) with (n + n * length ids) by (cbn; lia).
    eapply appends_trans; [eapply Hm; exact Ec|exact Ha].
Qed.

(** The rows of a provisioned cluster append only [get_metric_statistics]
    requests to the log, 14 per row; those of any other cluster append only
    [list_metrics] and [get_metric_data] requests, and no
    [get_metric_statistics] request. *)
Theorem cluster_requests cw region cluster_id details s rows s' :
  cluster_rows cw region (cluster_id, details) s = (Ok rows, s') ->
  exists d, describe_cluster region cluster_id details = Ok d
    /\ (cd_type d = "PROVISIONED" ->
        appends (fun c => call_op c = "get_metric_statistics") "get_metric_statistics"
                ((length AVERAGE_METRICS + length PEAK_METRICS) * length rows) s s')
    /\ (cd_type d <> "PROVISIONED" ->
        appends (fun c => call_op c = "list_metrics" \/ call_op c = "get_metric_data") "get_metric_statistics"
                0 s s').
Proof.
  intros H. apply cluster_rows_inv in H as (d & ids & Hd & _ & Hr).
  exists d. split; [exact Hd|]. split; intros Ht.
  - apply String.eqb_eq in Ht.
    edestruct (node_rows_appends cw cluster_id d (fun c => call_op c = "get_metric_statistics")
                 "get_metric_statistics" (length AVERAGE_METRICS + length PEAK_METRICS) ids) as [Ha Hl];
      [|exact Hr|].
    + intros nid s0 cells s0' Hc. exact (proj1 (metric_cells_appends _ _ _ _ _ _ _ Hc) Ht).
    + rewrite Hl. exact Ha.
  - apply String.eqb_neq in Ht.
    edestruct (node_rows_appends cw cluster_id d (fun c => call_op c = "list_metrics" \/ call_op c = "get_metric_data")
                 "get_metric_statistics" 0 ids) as [Ha Hl];
      [|exact Hr|].
    + intros nid s0 cells s0' Hc. exact (proj2 (metric_cells_appends _ _ _ _ _ _ _ Hc) Ht).
    + exact Ha.
Qed.

Lemma cluster_requests_witness :
  exists d, describe_cluster "us-east-1" (VStr "demo-msk") demo_msk_descriptor = Ok d
    /\ (cd_type d = "PROVISIONED" ->
        appends (fun c => call_op c = "get_metric_statistics") "get_metric_statistics"
                ((length AVERAGE_METRICS + length PEAK_METRICS)
                 * length (result_or (fst (cluster_rows demo_cw "us-east-1" (VStr "demo-msk", demo_msk_descriptor)
                                                          demo_state)) []))
                demo_state (snd (cluster_rows demo_cw "us-east-1" (VStr "demo-msk", demo_msk_descriptor) demo_state)))
    /\ (cd_type d <> "PROVISIONED" ->
        appends (fun c => call_op c = "list_metrics" \/ call_op c = "get_metric_data") "get_metric_statistics"
                0 demo_state
                (snd (cluster_rows demo_cw "us-east-1" (VStr "demo-msk", demo_msk_descriptor) demo_state))).
Proof.
  apply (cluster_requests demo_cw "us-east-1" (VStr "demo-msk") demo_msk_descriptor demo_state).
  vm_compute. reflexivity.
Defined.

Lemma describe_cluster_version region cluster_id details d :
  describe_cluster region cluster_id details = Ok d ->
  (rbind (py_get details "ClusterType" (VStr "CLUSTERLESS")) py_upper = Ok "PROVISIONED" ->
   exists kv, rbind (py_index details "Provisioned")
                (fun p => rbind (py_index p "CurrentBrokerSoftwareInfo") (fun c => py_index c "KafkaVersion"))
              = Ok kv
   /\ nth 4 (cd_base_info d) VNone = VTuple [kv])
  /\ (rbind (py_get details "ClusterType" (VStr "CLUSTERLESS")) py_upper <> Ok "PROVISIONED" ->
      nth 4 (cd_base_info d) VNone = VStr "N/A" /\ nth 5 (cd_base_info d) VNone = VStr "N/A").
Proof.
  intros H. unfold describe_cluster in H.
  destruct (py_get details "ClusterType" (VStr "CLUSTERLESS")) as [ct|e] eqn:Ect; cbn [rbind] in H |- *;
    [|discriminate H].
  destruct (py_upper ct) as [cluster_type|e] eqn:Eu; cbn [rbind] in H; [|discriminate H].
  destruct (String.eqb cluster_type "PROVISIONED") eqn:Ep.
  - apply String.eqb_eq in Ep; subst cluster_type.
    split; [|intros Hn; congruence]. intros _.
    rbind_inv H. injection H as <-. cbn [cd_base_info nth].
    eexists. split; [|reflexivity].
    unfold rbind; cbv beta iota; rewrite E3; exact E4.
  - split; [intros Hp; injection Hp as ->; rewrite String.eqb_refl in Ep; discriminate Ep|].
    intros _. rbind_inv H. injection H as <-. cbn. auto.
Qed.

Lemma node_rows_first_cells cw cluster_id d ids s row rows s' :
  node_rows cw cluster_id d false ids s = (Ok (row :: rows), s') ->
  forall i, i < length (cd_base_info d) -> nth i row VNone = nth i (cd_base_info d) VNone.
Proof.
  destruct ids as [|nid ids]; cbn [node_rows]; unfold ret, bind.
  - discriminate.
  - destruct (metric_cells cw cluster_id (cd_type d) nid s) as [[cells|e] s1];
      [|discriminate].
    destruct (node_rows cw cluster_id d true ids s1) as [[rs|e] s2]; [|discriminate].
    intros H i Hi. injection H as <- _ _. apply app_nth1; exact Hi.
Qed.

(** The first row of a provisioned cluster holds in column 4 the one-element
    tuple of its [KafkaVersion]; the first row of any other cluster holds
    [N/A] in columns 4 and 5. *)
Theorem cluster_first_row_version cw region cluster_id details s row rows s' :
  cluster_rows cw region (cluster_id, details) s = (Ok (row :: rows), s') ->
  (rbind (py_get details "ClusterType" (VStr "CLUSTERLESS")) py_upper = Ok "PROVISIONED" ->
   exists kv, rbind (py_index details "Provisioned")
                (fun p => rbind (py_index p "CurrentBrokerSoftwareInfo") (fun c => py_index c "KafkaVersion"))
              = Ok kv
   /\ nth 4 row VNone = VTuple [kv])
  /\ (rbind (py_get details "ClusterType" (VStr "CLUSTERLESS")) py_upper <> Ok "PROVISIONED" ->
      nth 4 row VNone = VStr "N/A" /\ nth 5 row VNone = VStr "N/A").
Proof.
  intros H. apply cluster_rows_inv in H as (d & ids & Hd & _ & Hr).
  destruct (describe_cluster_shape _ _ _ _ Hd) as [(az & auth & kv & em & Hb) _].
  pose proof (node_rows_first_cells _ _ _ _ _ _ _ _ Hr) as Hf.
  rewrite !Hf by (rewrite Hb; cbn; lia).
  exact (describe_cluster_version _ _ _ _ Hd).
Qed.

Lemma cluster_first_row_version_witness :
  (rbind (py_get demo_msk_descriptor "ClusterType" (VStr "CLUSTERLESS")) py_upper = Ok "PROVISIONED" ->
   exists kv, rbind (py_index demo_msk_descriptor "Provisioned")
                (fun p => rbind (py_index p "CurrentBrokerSoftwareInfo") (fun c => py_index c "KafkaVersion"))
              = Ok kv
   /\ nth 4 (hd [] (result_or (fst (cluster_rows demo_cw "us-east-1" (VStr "demo-msk", demo_msk_descriptor) demo_state)) [])) VNone = VTuple [kv])
  /\ (rbind (py_get demo_msk_descriptor "ClusterType" (VStr "CLUSTERLESS")) py_upper <> Ok "PROVISIONED" ->
      nth 4 (hd [] (result_or (fst (cluster_rows demo_cw "us-east-1" (VStr "demo-msk", demo_msk_descriptor) demo_state)) [])) VNone = VStr "N/A"
      /\ nth 5 (hd [] (result_or (fst (cluster_rows demo_cw "us-east-1" (VStr "demo-msk", demo_msk_descriptor) demo_state)) [])) VNone = VStr "N/A").
Proof.
  apply (cluster_first_row_version demo_cw "us-east-1" (VStr "demo-msk") demo_msk_descriptor demo_state
           (hd [] (result_or (fst (cluster_rows demo_cw "us-east-1" (VStr "demo-msk", demo_msk_descriptor) demo_state)) []))
           (tl (result_or (fst (cluster_rows demo_cw "us-east-1" (VStr "demo-msk", demo_msk_descriptor) demo_state)) []))
           (snd (cluster_rows demo_cw "us-east-1" (VStr "demo-msk", demo_msk_descriptor) demo_state))).
  vm_compute. reflexivity.
Defined.

(** A provisioned cluster whose [NumberOfBrokerNodes] is an integer n gives
    no rows and no requests when n <= 0, and n rows otherwise; a non-integer
    count raises [TypeError] before any request. *)
Theorem cluster_rows_node_count cw region cluster_id details d nb s :
  describe_cluster region cluster_id details = Ok d ->
  cd_type d = "PROVISIONED" ->
  rbind (py_index details "Provisioned") (fun p => py_index p "NumberOfBrokerNodes") = Ok nb ->
  ((exists n, int_value nb = Some n /\ (n <= 0)%Z) ->
     cluster_rows cw region (cluster_id, details) s = (Ok [], s))
  /\ (int_value nb = None -> cluster_rows cw region (cluster_id, details) s = (Raise TypeError, s))
  /\ (forall n rows s', int_value nb = Some n ->
        cluster_rows cw region (cluster_id, details) s = (Ok rows, s') -> length rows = Z.to_nat n).
Proof.
  intros Hd Ht Hn.
  destruct (describe_cluster_shape _ _ _ _ Hd) as [(az & auth & kv & em & Hb) [_ [Hp _]]].
  rewrite Ht in Hp. specialize (Hp eq_refl). rewrite Hn in Hp. injection Hp as Hp.
  assert (Hids : node_ids d = match int_value nb with
                              | Some z => Ok (py_range 1 (z + 1))
                              | None => Raise TypeError end).
  { unfold node_ids. rewrite Ht. cbn [String.eqb Ascii.eqb Bool.eqb].
    rewrite <- Hp. unfold py_add. destruct (int_value nb); reflexivity. }
  assert (Hcr : forall s, cluster_rows cw region (cluster_id, details) s
                = match node_ids d with
                  | Ok ids => node_rows cw cluster_id d false ids s
                  | Raise e => (Raise e, s) end).
  { intros s0. unfold cluster_rows, bind, liftR. rewrite Hd. destruct (node_ids d); reflexivity. }
  rewrite !Hcr, Hids.
  split; [|split].
  - intros (n & Hz & Hle). rewrite Hz. unfold py_range.
    replace (Z.to_nat (n + 1 - 1)) with 0 by lia. reflexivity.
  - intros Hz. rewrite Hz. reflexivity.
  - intros n rows s' Hz Hr. rewrite Hz in Hr.
    assert (Hc : Forall2 _ _ rows) by (eapply node_rows_cells; [rewrite Hb; reflexivity|exact Hr]).
    rewrite <- (Forall2_length Hc). unfold py_range. rewrite length_map, length_seq. f_equal; lia.
Qed.

Lemma cluster_rows_node_count_witness :
  exists d nb,
    describe_cluster "us-east-1" (VStr "empty")
      (provisioned_descriptor (VStr "empty") (VDict []) (VStr "DEFAULT") (VStr "3.5.1") (VStr "DEFAULT") (VInt 0))
    = Ok d
    /\ cd_type d = "PROVISIONED"
    /\ rbind (py_index (provisioned_descriptor (VStr "empty") (VDict []) (VStr "DEFAULT") (VStr "3.5.1")
                          (VStr "DEFAULT") (VInt 0)) "Provisioned")
             (fun p => py_index p "NumberOfBrokerNodes") = Ok nb
    /\ ((exists n, int_value nb = Some n /\ (n <= 0)%Z) ->
          cluster_rows demo_cw "us-east-1"
            (VStr "empty", provisioned_descriptor (VStr "empty") (VDict []) (VStr "DEFAULT") (VStr "3.5.1")
                                                  (VStr "DEFAULT") (VInt 0)) demo_state
          = (Ok [], demo_state))
    /\ exists n, int_value nb = Some n /\ (n <= 0)%Z.
Proof.
  destruct (describe_cluster "us-east-1" (VStr "empty")
      (provisioned_descriptor (VStr "empty") (VDict []) (VStr "DEFAULT") (VStr "3.5.1") (VStr "DEFAULT") (VInt 0)))
    as [d|e] eqn:Ed; [|vm_compute in Ed; discriminate Ed].
  assert (Ht : cd_type d = "PROVISIONED") by (vm_compute in Ed; injection Ed as <-; reflexivity).
  exists d, (VInt 0). split; [reflexivity|]. split; [exact Ht|]. split; [reflexivity|].
  split; [|exists 0%Z; split; [reflexivity|lia]].
  exact (proj1 (cluster_rows_node_count demo_cw "us-east-1" (VStr "empty") _ d (VInt 0) demo_state
                  Ed Ht eq_refl)).
Defined.

Lemma get_aws_costs_eq py_float ce region today s p :
  minus_one_day (replace_day1 today) = Ok p ->
  get_aws_costs py_float ce region today s =
    (Ok (match rbind (get_cost_and_usage ce (cost_and_usage_kwargs region (strftime_ymd (replace_day1 p))
                                                                   (strftime_ymd p)))
                     (cost_data py_float) with
         | Ok ((_ :: _) as data) =>
             data ++ [mkCost (VStr "TOTAL") (VStr "ALL") (sum_Z (map cr_cost data))]
         | _ => []
         end),
     mkState (st_now s)
       (st_log s ++ [mkCall "get_cost_and_usage"
                       (cost_and_usage_kwargs region (strftime_ymd (replace_day1 p)) (strftime_ymd p))])).
Proof.
  intros Hp. unfold get_aws_costs, try_M, bind, liftR, backend, ret. rewrite Hp.
  destruct (get_cost_and_usage ce _) as [pd|e]; cbn [rbind]; [|reflexivity].
  destruct (cost_data py_float pd) as [[|r rs]|e]; reflexivity.
Qed.

Lemma get_aws_costs_overflow py_float ce region today s e :
  minus_one_day (replace_day1 today) = Raise e ->
  get_aws_costs py_float ce region today s = (Ok [], s).
Proof.
  intros Hp. unfold get_aws_costs, try_M, bind, liftR, ret. rewrite Hp. reflexivity.
Qed.

Lemma previous_month_end today :
  valid_date today -> ~ (year today = 1 /\ month today = 1)%Z ->
  let py := if Z.eqb (month today) 1 then (year today - 1)%Z else year today in
  let pm := if Z.eqb (month today) 1 then 12%Z else (month today - 1)%Z in
  minus_one_day (replace_day1 today) = Ok (mkDate py pm (days_in_month py pm)).
Proof.
  intros (Hy & Hm & _) Hn py pm. subst py pm.
  unfold minus_one_day, replace_day1. cbn [day month year].
  replace (1 <? 1)%Z with false by reflexivity.
  destruct (Z.eqb_spec (month today) 1) as [E|E].
  - rewrite E. replace (1 <? 1)%Z with false by reflexivity.
    replace (1 <? year today)%Z with true by (symmetry; apply Z.ltb_lt; lia). reflexivity.
  - replace (1 <? month today)%Z with true by (symmetry; apply Z.ltb_lt; lia). reflexivity.
Qed.

(** For a valid date outside January of year 1, [get_aws_costs] logs exactly
    one [get_cost_and_usage] request, for the first to the last day of the
    previous month. *)
Theorem get_aws_costs_window py_float ce region today s :
  valid_date today -> ~ (year today = 1 /\ month today = 1)%Z ->
  let py := if Z.eqb (month today) 1 then (year today - 1)%Z else year today in
  let pm := if Z.eqb (month today) 1 then 12%Z else (month today - 1)%Z in
  st_log (snd (get_aws_costs py_float ce region today s))
  = st_log s ++ [mkCall "get_cost_and_usage"
                   (cost_and_usage_kwargs region (strftime_ymd (mkDate py pm 1))
                                          (strftime_ymd (mkDate py pm (days_in_month py pm))))].
Proof.
  intros Hv Hn py pm.
  rewrite (get_aws_costs_eq _ _ _ _ _ _ (previous_month_end today Hv Hn)). reflexivity.
Qed.

Lemma get_aws_costs_window_witness :
  valid_date (mkDate 2024 3 15) /\ ~ (year (mkDate 2024 3 15) = 1 /\ month (mkDate 2024 3 15) = 1)%Z /\
  st_log (snd (get_aws_costs (fun _ => Raise ValueError) {| get_cost_and_usage := fun _ => Raise KeyError |}
                             (VStr "us-east-1") (mkDate 2024 3 15) demo_state))
  = [mkCall "get_cost_and_usage"
       (cost_and_usage_kwargs (VStr "us-east-1") (strftime_ymd (mkDate 2024 2 1))
                              (strftime_ymd (mkDate 2024 2 (days_in_month 2024 2))))].
Proof.
  assert (Hv : valid_date (mkDate 2024 3 15)) by (unfold valid_date; cbn; lia).
  assert (Hn : ~ (year (mkDate 2024 3 15) = 1 /\ month (mkDate 2024 3 15) = 1)%Z) by (cbn; lia).
  split; [exact Hv|]. split; [exact Hn|].
  exact (get_aws_costs_window (fun _ => Raise ValueError) {| get_cost_and_usage := fun _ => Raise KeyError |}
           (VStr "us-east-1") (mkDate 2024 3 15) demo_state Hv Hn).
Defined.

(** [get_aws_costs] never raises: it returns either the empty frame, or the
    rows read from the response followed by one [TOTAL]/[ALL] row holding
    their sum. *)
Theorem get_aws_costs_total_row py_float ce region today s :
  exists rows, fst (get_aws_costs py_float ce region today s) = Ok rows
  /\ (rows = []
      \/ exists p pricing_data data,
           minus_one_day (replace_day1 today) = Ok p
           /\ get_cost_and_usage ce (cost_and_usage_kwargs region (strftime_ymd (replace_day1 p))
                                                          (strftime_ymd p)) = Ok pricing_data
           /\ cost_data py_float pricing_data = Ok data
           /\ data <> []
           /\ rows = data ++ [mkCost (VStr "TOTAL") (VStr "ALL") (sum_Z (map cr_cost data))]).
Proof.
  destruct (minus_one_day (replace_day1 today)) as [p|e] eqn:Hp.
  - rewrite (get_aws_costs_eq _ _ _ _ _ _ Hp). cbn [fst]. eexists; split; [reflexivity|].
    destruct (get_cost_and_usage ce _) as [pd|e] eqn:Eg; cbn [rbind]; [|left; reflexivity].
    destruct (cost_data py_float pd) as [[|r rs]|e] eqn:Ec; try (left; reflexivity).
    right. exists p, pd, (r :: rs). repeat split; auto. discriminate.
  - rewrite (get_aws_costs_overflow _ _ _ _ _ _ Hp). cbn [fst]. eexists; split; [reflexivity|]. left; reflexivity.
Qed.

(** [get_aws_costs] returns the empty frame when the Cost Explorer request
    raises, when the response has no groups, or when one of them cannot be
    read. *)
Theorem get_aws_costs_empty py_float ce region today s p :
  minus_one_day (replace_day1 today) = Ok p ->
  let kwargs := cost_and_usage_kwargs region (strftime_ymd (replace_day1 p)) (strftime_ymd p) in
  (forall e, get_cost_and_usage ce kwargs = Raise e ->
     get_aws_costs py_float ce region today s
     = (Ok [], mkState (st_now s) (st_log s ++ [mkCall "get_cost_and_usage" kwargs])))
  /\ (forall pricing_data, get_cost_and_usage ce kwargs = Ok pricing_data ->
      (cost_data py_float pricing_data = Ok [] \/ exists e, cost_data py_float pricing_data = Raise e) ->
      get_aws_costs py_float ce region today s
      = (Ok [], mkState (st_now s) (st_log s ++ [mkCall "get_cost_and_usage" kwargs]))).
Proof.
  intros Hp kwargs. rewrite (get_aws_costs_eq _ _ _ _ _ _ Hp). fold kwargs.
  split.
  - intros e He. rewrite He. reflexivity.
  - intros pd Hg Hc. rewrite Hg. cbn [rbind].
    destruct Hc as [Hc|[e Hc]]; rewrite Hc; reflexivity.
Qed.

Lemma get_aws_costs_empty_witness :
  minus_one_day (replace_day1 (mkDate 2024 3 15)) = Ok (mkDate 2024 2 29)
  /\ (let kwargs := cost_and_usage_kwargs (VStr "us-east-1") (strftime_ymd (replace_day1 (mkDate 2024 2 29)))
                                        (strftime_ymd (mkDate 2024 2 29)) in
      (forall e, get_cost_and_usage {| get_cost_and_usage := fun _ => Raise KeyError |} kwargs = Raise e ->
         get_aws_costs (fun _ => Raise ValueError) {| get_cost_and_usage := fun _ => Raise KeyError |}
                       (VStr "us-east-1") (mkDate 2024 3 15) demo_state
         = (Ok [], mkState (st_now demo_state) (st_log demo_state ++ [mkCall "get_cost_and_usage" kwargs])))
      /\ (forall pricing_data,
            get_cost_and_usage {| get_cost_and_usage := fun _ => Raise KeyError |} kwargs = Ok pricing_data ->
            (cost_data (fun _ => Raise ValueError) pricing_data = Ok []
             \/ exists e, cost_data (fun _ => Raise ValueError) pricing_data = Raise e) ->
            get_aws_costs (fun _ => Raise ValueError) {| get_cost_and_usage := fun _ => Raise KeyError |}
                          (VStr "us-east-1") (mkDate 2024 3 15) demo_state
            = (Ok [], mkState (st_now demo_state) (st_log demo_state ++ [mkCall "get_cost_and_usage" kwargs])))).
Proof.
  assert (Hp : minus_one_day (replace_day1 (mkDate 2024 3 15)) = Ok (mkDate 2024 2 29)) by reflexivity.
  split; [exact Hp|].
  exact (get_aws_costs_empty (fun _ => Raise ValueError) {| get_cost_and_usage := fun _ => Raise KeyError |}
           (VStr "us-east-1") (mkDate 2024 3 15) demo_state (mkDate 2024 2 29) Hp).
Defined.

(** [pd.ExcelWriter(output_file)] runs first: when it raises, the exception
    escapes [process_aws_account] before any backend request. Once the
    writer is open, an exception from [get_msk_cluster_data] escapes
    [process_aws_account] before the Cost Explorer is queried. *)
Theorem process_aws_account_cluster_error py_float cw kafka ce xl section output_dir region today s e s1 :
  let output_file := path_join output_dir (section ++ "-" ++ region ++ ".xlsx") in
  (excel_open xl output_file = Raise e ->
   process_aws_account py_float cw kafka ce xl section output_dir region today s = (Raise e, s))
  /\ (excel_open xl output_file = Ok tt ->
      get_msk_cluster_data cw kafka region s = (Raise e, s1) ->
      process_aws_account py_float cw kafka ce xl section output_dir region today s = (Raise e, s1)).
Proof.
  cbv zeta. split; intros H.
  - unfold process_aws_account, bind at 1, liftR at 1. rewrite H. reflexivity.
  - intros H1. unfold process_aws_account, bind at 1, liftR at 1. rewrite H.
    unfold bind at 1. rewrite H1. reflexivity.
Qed.

Lemma process_aws_account_cluster_error_witness :
  get_msk_cluster_data demo_cw (kafka_of [no_auth_descriptor]) "us-east-1" demo_state
    = (Raise KeyError, snd (get_msk_cluster_data demo_cw (kafka_of [no_auth_descriptor]) "us-east-1" demo_state))
  /\ process_aws_account (fun _ => Raise ValueError) demo_cw (kafka_of [no_auth_descriptor])
       {| get_cost_and_usage := fun _ => Raise KeyError |} demo_xl "acct" "out" "us-east-1" (mkDate 2024 3 15)
       demo_state
     = (Raise KeyError, snd (get_msk_cluster_data demo_cw (kafka_of [no_auth_descriptor]) "us-east-1" demo_state)).
Proof.
  assert (H : get_msk_cluster_data demo_cw (kafka_of [no_auth_descriptor]) "us-east-1" demo_state
    = (Raise KeyError, snd (get_msk_cluster_data demo_cw (kafka_of [no_auth_descriptor]) "us-east-1" demo_state)))
    by (vm_compute; reflexivity).
  split; [exact H|].
  exact (proj2 (process_aws_account_cluster_error (fun _ => Raise ValueError) demo_cw (kafka_of [no_auth_descriptor])
                  {| get_cost_and_usage := fun _ => Raise KeyError |} demo_xl "acct" "out" "us-east-1"
                  (mkDate 2024 3 15) demo_state KeyError _) eq_refl H).
Defined.

(** When the writer opens the file, writes its sheets and saves, the
    workbook is saved at [output_dir/section-region.xlsx] with the cluster
    frame as sheet [ClusterData], and a [Costs] sheet exactly when the cost
    frame is not empty. *)
Theorem process_aws_account_workbook py_float cw kafka ce xl section output_dir region today s df s1 costs s2 :
  let output_file := path_join output_dir (section ++ "-" ++ region ++ ".xlsx") in
  let sheets := ("ClusterData", ClusterSheet df)
                :: match costs with [] => [] | _ => [("Costs", CostSheet costs)] end in
  excel_open xl output_file = Ok tt ->
  get_msk_cluster_data cw kafka region s = (Ok df, s1) ->
  excel_write xl output_file "ClusterData" (ClusterSheet df) = Ok tt ->
  get_aws_costs py_float ce (VStr region) today s1 = (Ok costs, s2) ->
  (costs <> [] -> excel_write xl output_file "Costs" (CostSheet costs) = Ok tt) ->
  excel_save xl (mkWorkbook output_file sheets) = Ok tt ->
  exists wb,
    process_aws_account py_float cw kafka ce xl section output_dir region today s = (Ok wb, s2)
    /\ wb_path wb = output_file
    /\ (costs = [] -> wb_sheets wb = [("ClusterData", ClusterSheet df)])
    /\ (costs <> [] -> wb_sheets wb = [("ClusterData", ClusterSheet df); ("Costs", CostSheet costs)]).
Proof.
  cbv zeta. intros Ho H1 Hw1 H2 Hw2 Hs.
  unfold process_aws_account, bind, liftR. rewrite Ho, H1, Hw1, H2.
  destruct costs as [|c cs].
  - cbn [app] in Hs |- *. unfold ret. rewrite Hs.
    eexists. split; [reflexivity|]. cbn [wb_path wb_sheets]. split; [reflexivity|].
    split; intros Hc; [reflexivity|congruence].
  - rewrite Hw2 by congruence. cbn [app] in Hs |- *. unfold ret. rewrite Hs.
    eexists. split; [reflexivity|]. cbn [wb_path wb_sheets]. split; [reflexivity|].
    split; intros Hc; [congruence|reflexivity].
Qed.

Lemma process_aws_account_workbook_witness :
  let s1 := snd (get_msk_cluster_data demo_cw demo_kafka "us-east-1" demo_state) in
  let df := result_or (fst (get_msk_cluster_data demo_cw demo_kafka "us-east-1" demo_state))
                      (mkFrame [] []) in
  let s2 := snd (get_aws_costs demo_py_float demo_ce (VStr "us-east-1") (mkDate 2024 3 15) s1) in
  get_msk_cluster_data demo_cw demo_kafka "us-east-1" demo_state = (Ok df, s1)
  /\ get_aws_costs demo_py_float demo_ce (VStr "us-east-1") (mkDate 2024 3 15) s1 = (Ok demo_costs, s2)
  /\ exists wb,
    process_aws_account demo_py_float demo_cw demo_kafka demo_ce demo_xl "acct" "out" "us-east-1"
                        (mkDate 2024 3 15) demo_state = (Ok wb, s2)
    /\ wb_path wb = path_join "out" ("acct" ++ "-" ++ "us-east-1" ++ ".xlsx")
    /\ (demo_costs = [] -> wb_sheets wb = [("ClusterData", ClusterSheet df)])
    /\ (demo_costs <> [] -> wb_sheets wb = [("ClusterData", ClusterSheet df); ("Costs", CostSheet demo_costs)]).
Proof.
  intros s1 df s2.
  assert (H1 : get_msk_cluster_data demo_cw demo_kafka "us-east-1" demo_state = (Ok df, s1))
    by (vm_compute; reflexivity).
  assert (H2 : get_aws_costs demo_py_float demo_ce (VStr "us-east-1") (mkDate 2024 3 15) s1 = (Ok demo_costs, s2))
    by (vm_compute; reflexivity).
  split; [exact H1|]. split; [exact H2|].
  exact (process_aws_account_workbook demo_py_float demo_cw demo_kafka demo_ce demo_xl "acct" "out" "us-east-1"
           (mkDate 2024 3 15) demo_state df s1 demo_costs s2 eq_refl H1 eq_refl H2 (fun _ => eq_refl) eq_refl).
Defined.

(** [main] exits with status 1 on an empty argument or an unknown cluster
    type, calls [pullKafkaStats] for [osk], and raises [AttributeError] for
    [msk], [pullMSKStats] having no [processMSKStats]. *)
Theorem main_dispatch cluster_type config_file output_dir :
  ((config_file = EmptyString \/ cluster_type = EmptyString) ->
     main cluster_type config_file output_dir = Exited 1)
  /\ (config_file <> EmptyString -> main "msk" config_file output_dir = Raised AttributeError)
  /\ (config_file <> EmptyString -> main "osk" config_file output_dir = CallsOSK config_file output_dir)
  /\ (cluster_type <> "msk" -> cluster_type <> "osk" -> main cluster_type config_file output_dir = Exited 1).
Proof.
  unfold main. split; [|split; [|split]].
  - intros [-> | ->]; [reflexivity|]. now rewrite orb_true_r.
  - intros Hc. apply String.eqb_neq in Hc. rewrite Hc. reflexivity.
  - intros Hc. apply String.eqb_neq in Hc. rewrite Hc. reflexivity.
  - intros Hm Ho. apply String.eqb_neq in Hm, Ho. rewrite Hm, Ho.
    destruct (_ || _); reflexivity.
Qed.
